(** * Soil-moisture pipeline of the SMAP analysis edge function

    A shallow embedding of [supabase/functions/smap-analysis/index.ts]:
    the binary extractor [processHDF5File], the seeded fallback
    [getRegionalSoilMoisture] with [getRegionSeed], and the regional
    adjuster [applyRegionalCharacteristics], followed by the properties
    the specification states about them.

    Conventions of the embedding.
    - A JavaScript [number] is NaN, one of the two infinities, or an exact
      rational.  Arithmetic on finite values is exact: rounding to binary64,
      overflow of finite values to an infinity, and the sign of zero are
      not modelled.  NaN and the infinities propagate as in IEEE-754.
    - Strings are sequences of 8-bit code units, the Latin-1 range of the
      source's UTF-16 strings; [toLowerCase] folds the letters A-Z and the
      Latin-1 capitals.
    - [console.log] and [console.error] append to a console that is
      threaded through the effectful functions; exceptions are explicit.
    - The host's local time zone is UTC, so the local-time getters of
      [Date] coincide with the UTC ones. *)

From Stdlib Require Import ZArith QArith Qround Qminmax Qpower Lqa Lia List String Ascii Bool.
From Stdlib Require Import Strings.Byte.
Import ListNotations.

Set Warnings "-register-all".

(* ================================================================== *)
(** ** JavaScript numbers *)

Inductive number : Type :=
| NaN
| PosInf
| NegInf
| Fin (q : Q).

Module Num.

Definition ofZ (z : Z) : number := Fin (inject_Z z).

Definition isNaN (x : number) : bool :=
  match x with NaN => true | _ => false end.

Definition isFinite (x : number) : bool :=
  match x with Fin _ => true | _ => false end.

Definition neg (x : number) : number :=
  match x with
  | NaN => NaN
  | PosInf => NegInf
  | NegInf => PosInf
  | Fin a => Fin (- a)
  end.

(** [x + y] *)
Definition add (x y : number) : number :=
  match x, y with
  | NaN, _ | _, NaN => NaN
  | PosInf, NegInf | NegInf, PosInf => NaN
  | PosInf, _ | _, PosInf => PosInf
  | NegInf, _ | _, NegInf => NegInf
  | Fin a, Fin b => Fin (a + b)
  end.

(** [x - y] *)
Definition sub (x y : number) : number := add x (neg y).

(** The product of an infinity (positive or negative) and the finite [a]:
    the signs multiply, and [0 * Infinity] is NaN. *)
Definition scaleInf (positive : bool) (a : Q) : number :=
  match a ?= 0 with
  | Eq => NaN
  | Gt => if positive then PosInf else NegInf
  | Lt => if positive then NegInf else PosInf
  end.

(** [x * y] *)
Definition mul (x y : number) : number :=
  match x, y with
  | NaN, _ | _, NaN => NaN
  | Fin a, Fin b => Fin (a * b)
  | Fin a, PosInf | PosInf, Fin a => scaleInf true a
  | Fin a, NegInf | NegInf, Fin a => scaleInf false a
  | PosInf, PosInf | NegInf, NegInf => PosInf
  | PosInf, NegInf | NegInf, PosInf => NegInf
  end.

(** [x / y] *)
Definition div (x y : number) : number :=
  match x, y with
  | NaN, _ | _, NaN => NaN
  | Fin a, Fin b =>
      match b ?= 0 with
      | Eq => scaleInf true a
      | _ => Fin (a / b)
      end
  | Fin _, (PosInf | NegInf) => Fin 0
  | PosInf, Fin b => if Qle_bool 0 b then PosInf else NegInf
  | NegInf, Fin b => if Qle_bool 0 b then NegInf else PosInf
  | _, _ => NaN
  end.

(** The integer part of a rational, rounding toward zero. *)
Definition Qtrunc (a : Q) : Z :=
  if Qle_bool 0 a then Qfloor a else Qceiling a.

(** [x % y]: the remainder takes the sign of the dividend. *)
Definition rem (x y : number) : number :=
  match x, y with
  | NaN, _ | _, NaN => NaN
  | (PosInf | NegInf), _ => NaN
  | Fin a, (PosInf | NegInf) => Fin a
  | Fin a, Fin b =>
      match b ?= 0 with
      | Eq => NaN
      | _ => Fin (a - b * inject_Z (Qtrunc (a / b)))
      end
  end.

(** [Math.floor] *)
Definition floor (x : number) : number :=
  match x with
  | Fin a => Fin (inject_Z (Qfloor a))
  | other => other
  end.

(** [x < y] *)
Definition lt (x y : number) : bool :=
  match x, y with
  | NaN, _ | _, NaN => false
  | Fin a, Fin b => match a ?= b with Lt => true | _ => false end
  | NegInf, (Fin _ | PosInf) => true
  | Fin _, PosInf => true
  | _, _ => false
  end.

(** [x === y] *)
Definition eq (x y : number) : bool :=
  match x, y with
  | Fin a, Fin b => Qeq_bool a b
  | PosInf, PosInf | NegInf, NegInf => true
  | _, _ => false
  end.

(** [x <= y], [x > y], [x >= y], [x !== y] *)
Definition le (x y : number) : bool := lt x y || eq x y.
Definition gt (x y : number) : bool := lt y x.
Definition ge (x y : number) : bool := le y x.
Definition ne (x y : number) : bool := negb (eq x y).

(** [Math.min(x, y)] and [Math.max(x, y)]: NaN if either argument is. *)
Definition min (x y : number) : number :=
  match x, y with
  | NaN, _ | _, NaN => NaN
  | _, _ => if lt y x then y else x
  end.

Definition max (x y : number) : number :=
  match x, y with
  | NaN, _ | _, NaN => NaN
  | _, _ => if lt x y then y else x
  end.

(** Equality of numbers up to the representation of a rational. *)
Definition same (x y : number) : Prop :=
  match x, y with
  | NaN, NaN | PosInf, PosInf | NegInf, NegInf => True
  | Fin a, Fin b => a == b
  | _, _ => False
  end.

(** [x] is a finite value in the closed interval from [lo] to [hi]. *)
Definition within (lo hi : Q) (x : number) : Prop :=
  match x with
  | Fin a => lo <= a <= hi
  | _ => False
  end.

End Num.

Declare Scope num_scope.
Delimit Scope num_scope with num.
Bind Scope num_scope with number.
Infix "+" := Num.add : num_scope.
Infix "-" := Num.sub : num_scope.
Infix "*" := Num.mul : num_scope.
Infix "/" := Num.div : num_scope.
Infix "%%" := Num.rem (at level 40, left associativity) : num_scope.
Coercion Fin : Q >-> number.

(* ================================================================== *)
(** ** Strings *)

Module Str.

(** The lower-case form of a code unit below 256: the letters A-Z (65-90)
    and the Latin-1 capitals (192-222, the multiplication sign 215
    excepted) move up by 32. *)
Definition lowerChar (c : ascii) : ascii :=
  let n := nat_of_ascii c in
  if ((65 <=? n) && (n <=? 90)
      || (192 <=? n) && (n <=? 222) && negb (n =? 215))%nat
  then ascii_of_nat (n + 32) else c.

(** [s.toLowerCase()] *)
Fixpoint toLowerCase (s : string) : string :=
  match s with
  | EmptyString => EmptyString
  | String c rest => String (lowerChar c) (toLowerCase rest)
  end.

(** [s.includes(pat)] *)
Fixpoint includes (s pat : string) : bool :=
  if String.prefix pat s then true
  else match s with
       | EmptyString => false
       | String _ rest => includes rest pat
       end.

(** [s.split('')]: the code units of [s], one string each in the source;
    they are kept as characters here and read with [charCodeAt]. *)
Definition split (s : string) : list ascii := list_ascii_of_string s.

(** [char.charCodeAt(0)] *)
Definition charCodeAt0 (c : ascii) : number := Num.ofZ (Z.of_nat (nat_of_ascii c)).

(** [chars.reduce((acc, char) => acc + char.charCodeAt(0), 0)] *)
Definition sumCharCodes (chars : list ascii) : number :=
  fold_left (fun acc char => (acc + charCodeAt0 char)%num) chars (Num.ofZ 0).

End Str.

(* ================================================================== *)
(** ** RegionalClimateAdjuster *)

Module Adjuster.

Import Str.
Local Open Scope string_scope.
Local Open Scope Q_scope.

(** [applyRegionalCharacteristics] *)
Definition applyRegionalCharacteristics
    (baseMoisture : number) (region subregion : string) : number :=
  let regionLower := toLowerCase region in
  let subregionLower := toLowerCase subregion in
  (* Southeast Asian adjustments *)
  if includes regionLower "thailand" || includes regionLower "central thailand" then
    if includes subregionLower "bangkok" then
      Num.max 0.15 (Num.min 0.4 (baseMoisture * 1.1))
    else if includes subregionLower "chao phraya" then
      Num.max 0.2 (Num.min 0.45 (baseMoisture * 1.2))
    else
      Num.max 0.15 (Num.min 0.35 (baseMoisture * 1.0))
  else if includes regionLower "vietnam" || includes regionLower "mekong delta" then
    Num.max 0.25 (Num.min 0.5 (baseMoisture * 1.3))
  else if includes regionLower "indonesia" || includes regionLower "java island" then
    if includes subregionLower "west java" then
      Num.max 0.25 (Num.min 0.45 (baseMoisture * 1.2))
    else if includes subregionLower "central java" then
      Num.max 0.2 (Num.min 0.4 (baseMoisture * 1.1))
    else
      Num.max 0.15 (Num.min 0.35 (baseMoisture * 0.9))
  else if includes regionLower "malaysia" || includes regionLower "peninsular malaysia" then
    Num.max 0.25 (Num.min 0.5 (baseMoisture * 1.3))
  else if includes regionLower "philippines" || includes regionLower "luzon island" then
    if includes subregionLower "northern luzon" then
      Num.max 0.2 (Num.min 0.45 (baseMoisture * 1.1))
    else if includes subregionLower "central luzon" then
      Num.max 0.2 (Num.min 0.4 (baseMoisture * 1.0))
    else
      Num.max 0.18 (Num.min 0.38 (baseMoisture * 0.95))
  else
    (* California adjustments *)
    let california :=
      if includes regionLower "california" then
        if includes subregionLower "central valley" then
          Some (Num.max 0.15 (Num.min 0.4 (baseMoisture * 1.2)))
        else if includes subregionLower "southern coast" then
          Some (Num.max 0.08 (Num.min 0.25 (baseMoisture * 0.8)))
        else None
      else None in
    match california with
    | Some adjusted => adjusted
    | None =>
      (* India adjustments *)
      let india :=
        if includes regionLower "india" then
          if includes subregionLower "punjab" then
            Some (Num.max 0.2 (Num.min 0.35 (baseMoisture * 1.1)))
          else if includes subregionLower "kerala" then
            Some (Num.max 0.25 (Num.min 0.45 (baseMoisture * 1.3)))
          else if includes subregionLower "ganges" then
            Some (Num.max 0.15 (Num.min 0.35 (baseMoisture * 1.0)))
          else None
        else None in
      match india with
      | Some adjusted => adjusted
      | None =>
        (* Default: ensure reasonable range *)
        Num.max 0.05 (Num.min 0.45 baseMoisture)
      end
    end.

End Adjuster.

(* ================================================================== *)
(** ** Effects: console output and exceptions *)

Module Js.

Inductive exn : Type :=
| TypeError
| RangeError.

Inductive logEntry : Type :=
| Log (message : string)
| LogNum (message : string) (value : number)
| LogError (message : string) (error : exn).

Definition console : Type := list logEntry.

Inductive completion (A : Type) : Type :=
| Normal (a : A)
| Throw (e : exn).

Arguments Normal {A} a.
Arguments Throw {A} e.

(** A computation reads and extends the console and completes normally or
    abruptly. *)
Definition js (A : Type) : Type := console -> completion A * console.

Definition ret {A : Type} (a : A) : js A := fun c => (Normal a, c).

Definition throw {A : Type} (e : exn) : js A := fun c => (Throw e, c).

Definition bind {A B : Type} (m : js A) (k : A -> js B) : js B :=
  fun c =>
    match m c with
    | (Normal a, c') => k a c'
    | (Throw e, c') => (Throw e, c')
    end.

(** [try { body } catch (error) { handler }] *)
Definition tryCatch {A : Type} (body : js A) (handler : exn -> js A) : js A :=
  fun c =>
    match body c with
    | (Normal a, c') => (Normal a, c')
    | (Throw e, c') => handler e c'
    end.

(** [console.log] / [console.error] *)
Definition consoleLog (entry : logEntry) : js unit :=
  fun c => (Normal tt, c ++ [entry]).

(** Values of type [any], as far as the pipeline inspects them. *)
Inductive value : Type :=
| VUndefined
| VNull
| VBool (b : bool)
| VNum (n : number)
| VStr (s : string)
| VObj (props : list (string * value)).

Fixpoint lookup (props : list (string * value)) (key : string) : value :=
  match props with
  | [] => VUndefined
  | (k, v) :: rest => if String.eqb k key then v else lookup rest key
  end.

(** [v.key] for a key that no primitive wrapper defines: reading a property
    of [undefined] or [null] throws, a primitive yields [undefined]. *)
Definition getProp (v : value) (key : string) : js value :=
  match v with
  | VUndefined | VNull => throw TypeError
  | VObj props => ret (lookup props key)
  | VBool _ | VNum _ | VStr _ => ret VUndefined
  end.

(** ToBoolean *)
Definition truthy (v : value) : bool :=
  match v with
  | VUndefined | VNull => false
  | VBool b => b
  | VNum NaN => false
  | VNum (Fin q) => negb (Qeq_bool q 0)
  | VNum _ => true
  | VStr s => negb (String.eqb s EmptyString)
  | VObj _ => true
  end.

(** [v.split('')]: only a string has a callable [split]; on any other
    value the call throws (objects carry no function-valued properties
    in this model). *)
Definition callSplit (v : value) : js (list ascii) :=
  match v with
  | VStr s => ret (Str.split s)
  | _ => throw TypeError
  end.

End Js.

Notation "x <- m ;; k" := (Js.bind m (fun x => k))
  (at level 61, m at next level, right associativity).
Notation "m ;;; k" := (Js.bind m (fun _ => k))
  (at level 61, right associativity).

(* ================================================================== *)
(** ** Date objects (ECMA-262, 21.4.1) *)

Module JsDate.

Local Open Scope Z_scope.

Definition msPerDay : Z := 86400000.

Definition Day (t : Z) : Z := t / msPerDay.

Definition DaysInYear (y : Z) : Z :=
  if negb (y mod 4 =? 0) then 365
  else if negb (y mod 100 =? 0) then 366
  else if negb (y mod 400 =? 0) then 365
  else 366.

Definition DayFromYear (y : Z) : Z :=
  365 * (y - 1970) + (y - 1969) / 4 - (y - 1901) / 100 + (y - 1601) / 400.

Definition TimeFromYear (y : Z) : Z := msPerDay * DayFromYear y.

(** The year containing day number [d]: an estimate from the mean length
    of the Gregorian year, corrected by at most one. *)
Definition YearFromDay (d : Z) : Z :=
  let y := 1970 + (400 * d) / 146097 in
  if d <? DayFromYear y then y - 1
  else if DayFromYear (y + 1) <=? d then y + 1
  else y.

(** The largest [y] with [TimeFromYear y <= t]. *)
Definition YearFromTime (t : Z) : Z := YearFromDay (Day t).

Definition InLeapYear (t : Z) : Z :=
  if DaysInYear (YearFromTime t) =? 366 then 1 else 0.

Definition DayWithinYear (t : Z) : Z := Day t - DayFromYear (YearFromTime t).

(** First day within the year of month [m] (0 = January). *)
Definition monthStart (m leap : Z) : Z :=
  match m with
  | 0 => 0
  | 1 => 31
  | 2 => 59 + leap
  | 3 => 90 + leap
  | 4 => 120 + leap
  | 5 => 151 + leap
  | 6 => 181 + leap
  | 7 => 212 + leap
  | 8 => 243 + leap
  | 9 => 273 + leap
  | 10 => 304 + leap
  | _ => 334 + leap
  end.

Definition MonthFromTime (t : Z) : Z :=
  let d := DayWithinYear t in
  let leap := InLeapYear t in
  if d <? 31 then 0
  else if d <? 59 + leap then 1
  else if d <? 90 + leap then 2
  else if d <? 120 + leap then 3
  else if d <? 151 + leap then 4
  else if d <? 181 + leap then 5
  else if d <? 212 + leap then 6
  else if d <? 243 + leap then 7
  else if d <? 273 + leap then 8
  else if d <? 304 + leap then 9
  else if d <? 334 + leap then 10
  else 11.

Definition DateFromTime (t : Z) : Z :=
  DayWithinYear t + 1 - monthStart (MonthFromTime t) (InLeapYear t).

(** The host is in UTC. *)
Definition LocalTime (t : Z) : Z := t.
Definition UTC (t : Z) : Z := t.

Definition MakeDay (year month date : Z) : Z :=
  let ym := year + month / 12 in
  let mn := month mod 12 in
  let leap := if DaysInYear ym =? 366 then 1 else 0 in
  DayFromYear ym + monthStart mn leap + date - 1.

Definition MakeDate (day time : Z) : Z := day * msPerDay + time.

(** A Date object holds a time value, or NaN ([None]) when invalid. *)
Definition Date : Type := option Z.

Definition TimeClip (t : Z) : Date :=
  if Z.abs t <=? 8640000000000000 then Some t else None.

(** [new Date(year, month, date)] *)
Definition newDateYMD (year month date : number) : Date :=
  match year, month, date with
  | Fin y, Fin m, Fin dt =>
      let yi := Num.Qtrunc y in
      let yr := if (0 <=? yi) && (yi <=? 99) then 1900 + yi else yi in
      TimeClip (UTC (MakeDate (MakeDay yr (Num.Qtrunc m) (Num.Qtrunc dt)) 0))
  | _, _, _ => None
  end.

Definition getTime (d : Date) : number :=
  match d with Some t => Num.ofZ t | None => NaN end.

Definition getFullYear (d : Date) : number :=
  match d with Some t => Num.ofZ (YearFromTime (LocalTime t)) | None => NaN end.

Definition getMonth (d : Date) : number :=
  match d with Some t => Num.ofZ (MonthFromTime (LocalTime t)) | None => NaN end.

Definition getDate (d : Date) : number :=
  match d with Some t => Num.ofZ (DateFromTime (LocalTime t)) | None => NaN end.

(** A parser for the interface's date format, [YYYY-MM-DD], read as
    midnight UTC; it stands for [Date.parse] where a concrete one is
    needed. *)
Definition digit (c : ascii) : option Z :=
  let n := Z.of_nat (nat_of_ascii c) in
  if (48 <=? n) && (n <=? 57) then Some (n - 48) else None.

Fixpoint digits (cs : list ascii) (acc : Z) : option Z :=
  match cs with
  | [] => Some acc
  | c :: rest =>
      match digit c with
      | Some d => digits rest (10 * acc + d)
      | None => None
      end
  end.

Definition daysInMonth (y m : Z) : Z :=
  match m with
  | 2 => if DaysInYear y =? 366 then 29 else 28
  | 4 | 6 | 9 | 11 => 30
  | _ => 31
  end.

Definition parseIsoDate (s : string) : option Z :=
  match list_ascii_of_string s with
  | [y1; y2; y3; y4; "-"%char; m1; m2; "-"%char; d1; d2] =>
      match digits [y1; y2; y3; y4] 0, digits [m1; m2] 0, digits [d1; d2] 0 with
      | Some y, Some m, Some d =>
          if (1 <=? m) && (m <=? 12) && (1 <=? d) && (d <=? daysInMonth y m)
          then Some (MakeDate (MakeDay y (m - 1) d) 0)
          else None
      | _, _, _ => None
      end
  | _ => None
  end.

(** The same format with an expanded year, [+YYYYYY-MM-DD] or
    [-YYYYYY-MM-DD] (ECMA-262, 21.4.1.32.1); [-000000] is not a year. *)
Definition parseExpandedDate (s : string) : option Z :=
  match list_ascii_of_string s with
  | [sg; y1; y2; y3; y4; y5; y6; "-"%char; m1; m2; "-"%char; d1; d2] =>
      let sign :=
        if Ascii.eqb sg "+" then Some 1
        else if Ascii.eqb sg "-" then Some (-1)
        else None in
      match sign, digits [y1; y2; y3; y4; y5; y6] 0,
            digits [m1; m2] 0, digits [d1; d2] 0 with
      | Some sg, Some y0, Some m, Some d =>
          let y := sg * y0 in
          if negb ((sg =? -1) && (y0 =? 0))
             && (1 <=? m) && (m <=? 12) && (1 <=? d) && (d <=? daysInMonth y m)
          then Some (MakeDate (MakeDay y (m - 1) d) 0)
          else None
      | _, _, _, _ => None
      end
  | _ => None
  end.

(** Both forms of the date-only format. *)
Definition parseDate (s : string) : option Z :=
  match parseIsoDate s with
  | Some t => Some t
  | None => parseExpandedDate s
  end.

End JsDate.

(* ================================================================== *)
(** ** The edge function's pipeline stages *)

Module Smap.

Import Js JsDate.
Export Adjuster.
Local Open Scope string_scope.
Local Open Scope Z_scope.

(** *** [getSeason] *)

Definition getSeason (date : Date) : string :=
  let month := (getMonth date + Num.ofZ 1)%num in
  if Num.ge month (Num.ofZ 3) && Num.le month (Num.ofZ 5) then "Spring"
  else if Num.ge month (Num.ofZ 6) && Num.le month (Num.ofZ 8) then "Summer"
  else if Num.ge month (Num.ofZ 9) && Num.le month (Num.ofZ 11) then "Fall"
  else "Winter".

(** *** Buffers and the DataView over them *)

Definition ArrayBuffer : Type := list byte.

Definition byteLength (buffer : ArrayBuffer) : Z := Z.of_nat (List.length buffer).

Definition byteAt (buffer : ArrayBuffer) (i : Z) : Z :=
  Z.of_N (Byte.to_N (nth (Z.to_nat i) buffer x00)).

(** [dataView.getUint8(i)] *)
Definition getUint8 (dataView : ArrayBuffer) (i : Z) : js Z :=
  if (i <? 0) || (byteLength dataView <? i + 1) then throw RangeError
  else ret (byteAt dataView i).

(** The value of an IEEE-754 binary32 bit pattern. *)
Definition decodeFloat32 (bits : Z) : number :=
  let negative := Z.testbit bits 31 in
  let e := Z.land (Z.shiftr bits 23) 255 in
  let m := Z.land bits (2 ^ 23 - 1) in
  let signed (q : Q) : number := Fin (if negative then Qopp q else q) in
  if e =? 255 then
    if m =? 0 then (if negative then NegInf else PosInf) else NaN
  else if e =? 0 then
    signed (Qmult (inject_Z m) (Qpower 2 (-149)))
  else
    signed (Qmult (inject_Z (2 ^ 23 + m)) (Qpower 2 (e - 150))).

(** [dataView.getFloat32(offset, true)]: little-endian. *)
Definition getFloat32 (dataView : ArrayBuffer) (offset : Z) : js number :=
  if (offset <? 0) || (byteLength dataView <? offset + 4) then throw RangeError
  else ret (decodeFloat32 (byteAt dataView offset
                           + 2 ^ 8 * byteAt dataView (offset + 1)
                           + 2 ^ 16 * byteAt dataView (offset + 2)
                           + 2 ^ 24 * byteAt dataView (offset + 3))).

(** A bounding box [[minLon, minLat, maxLon, maxLat]]. *)
Definition BBox : Type := (number * number * number * number)%type.

Definition at0 (bbox : BBox) : number := let '(a, _, _, _) := bbox in a.
Definition at1 (bbox : BBox) : number := let '(_, b, _, _) := bbox in b.
Definition at2 (bbox : BBox) : number := let '(_, _, c, _) := bbox in c.
Definition at3 (bbox : BBox) : number := let '(_, _, _, d) := bbox in d.

(** *** BinaryMoistureExtractor: [processHDF5File] *)

(** [a && b] on effectful operands. *)
Definition andAlso (a b : js bool) : js bool :=
  x <- a ;; if x then b else ret false.

(** The marker test at offset [i]: the bytes of "SMAP". *)
Definition markerAt (dataView : ArrayBuffer) (i : Z) : js bool :=
  andAlso (b <- getUint8 dataView i ;; ret (b =? 0x53))
 (andAlso (b <- getUint8 dataView (i + 1) ;; ret (b =? 0x4D))
 (andAlso (b <- getUint8 dataView (i + 2) ;; ret (b =? 0x41))
          (b <- getUint8 dataView (i + 3) ;; ret (b =? 0x50)))).

(** [for (let i = 0; i < buffer.byteLength - 4; i++)]: [steps] iterations
    remain from index [i]; the result is [dataOffset]. *)
Fixpoint findDataOffset (dataView : ArrayBuffer) (i : Z) (steps : nat) : js Z :=
  match steps with
  | O => ret (-1)
  | S rest =>
      found <- markerAt dataView i ;;
      if found then ret (i + 1000)   (* Skip header, find data section *)
      else findDataOffset dataView (i + 1) rest
  end.

(** SMAP uses -9999 as fill value; a reading is valid strictly between
    0 and 1. *)
Definition isValidReading (value : number) : bool :=
  Num.ne value (Num.ofZ (-9999))
  && Num.gt value (Num.ofZ 0)
  && Num.lt value (Num.ofZ 1).

(** The simple geographic filter on the position proxies. *)
Definition insideBBox (bbox : BBox) (filePosition : number) : bool :=
  let latProxy := (at1 bbox + (at3 bbox - at1 bbox) * filePosition)%num in
  let lonProxy := (at0 bbox + (at2 bbox - at0 bbox) * filePosition)%num in
  Num.ge latProxy (at1 bbox) && Num.le latProxy (at3 bbox)
  && Num.ge lonProxy (at0 bbox) && Num.le lonProxy (at2 bbox).

(** One iteration of the reading loop, its [try] block. *)
Definition readOne (dataView : ArrayBuffer) (bbox : BBox)
    (dataOffset numValues i : Z) (validValues : list number) : js (list number) :=
  let offset := dataOffset + i * 4 in
  if offset + 4 <=? byteLength dataView then
    value <- getFloat32 dataView offset ;;
    if isValidReading value then
      (* Use position in file as proxy for geographic location *)
      let filePosition := (Num.ofZ i / Num.ofZ numValues)%num in
      if insideBBox bbox filePosition then ret (validValues ++ [value])%list
      else ret validValues
    else ret validValues
  else ret validValues.

(** [for (let i = 0; i < numValues; i++) { try { ... } catch (e) { continue; } }] *)
Fixpoint readValues (dataView : ArrayBuffer) (bbox : BBox)
    (dataOffset numValues i : Z) (steps : nat) (validValues : list number)
    : js (list number) :=
  match steps with
  | O => ret validValues
  | S rest =>
      validValues' <- tryCatch
                        (readOne dataView bbox dataOffset numValues i validValues)
                        (fun _ => ret validValues) ;;
      readValues dataView bbox dataOffset numValues (i + 1) rest validValues'
  end.

(** [validValues.reduce((sum, val) => sum + val, 0) / validValues.length] *)
Definition averageOf (validValues : list number) : number :=
  (fold_left Num.add validValues (Num.ofZ 0)
   / Num.ofZ (Z.of_nat (List.length validValues)))%num.

(** The resolved value of the promise: [{ average, validValues }] or
    [null]. *)
Definition processHDF5File (buffer : ArrayBuffer) (bbox : BBox)
    (region subregion : string) : js (option (number * list number)) :=
  tryCatch
    (consoleLog (Log "Parsing HDF5 file structure...") ;;;
     consoleLog (LogNum "HDF5 file size (bytes)" (Num.ofZ (byteLength buffer))) ;;;
     let dataView := buffer in
     (* Find the data section *)
     dataOffset <- findDataOffset dataView 0 (Z.to_nat (byteLength buffer - 4)) ;;
     if dataOffset =? -1 then
       consoleLog (Log "Could not find SMAP data pattern in file") ;;;
       ret None
     else
       consoleLog (LogNum "Found SMAP data section at offset" (Num.ofZ dataOffset)) ;;;
       let numValues := Z.min 1000 ((byteLength buffer - dataOffset) / 4) in
       validValues <- readValues dataView bbox dataOffset numValues 0
                        (Z.to_nat numValues) [] ;;
       if (List.length validValues =? 0)%nat then
         consoleLog (Log "No valid soil moisture readings found in HDF5 file") ;;;
         ret None
       else
         let average := averageOf validValues in
         consoleLog (LogNum "Processed valid soil moisture readings from HDF5"
                       (Num.ofZ (Z.of_nat (List.length validValues)))) ;;;
         consoleLog (LogNum "Average soil moisture from satellite" average) ;;;
         ret (Some (average, validValues)))
    (fun error =>
       consoleLog (LogError "Error processing HDF5 file" error) ;;;
       ret None).

(** *** FallbackEstimator: [getRegionSeed] and [getRegionalSoilMoisture] *)

(** [getRegionSeed] *)
Definition getRegionSeed (region subregion : string) : number :=
  let regionString := Str.toLowerCase (region ++ "-" ++ subregion) in
  Str.sumCharCodes (Str.split regionString).

(** [Math.sin((k * Math.PI) / 6)].  The pipeline evaluates it at month
    indices only; the table holds, to seventeen significant digits, the
    binary64 sine of the binary64 argument [(k * Math.PI) / 6], which is
    not a multiple of pi/6 exactly: the entry for 6 is not zero and the
    entries for 1, 5, 7 and 11 are not one half.  The sine of an infinity
    is NaN. *)
Definition sinTwelfths (k : number) : number :=
  match k with
  | Fin q =>
      match Qfloor q mod 12 with
      | 0 => Fin 0
      | 1 | 5 => Fin 0.49999999999999994
      | 2 => Fin 0.8660254037844386
      | 3 => Fin 1
      | 4 => Fin 0.8660254037844387
      | 6 => Fin 0.00000000000000012246467991473532
      | 7 => Fin (-0.4999999999999997)
      | 8 => Fin (-0.8660254037844384)
      | 9 => Fin (-1)
      | 10 => Fin (-0.8660254037844386)
      | _ => Fin (-0.5000000000000004)
      end
  | _ => NaN
  end.

Section Host.

(** [Date.parse] of the host: the time value of a date string, or NaN
    ([None]) when the string is not recognised. *)
Variable Date_parse : string -> option Z.

(** [new Date(date)] *)
Definition newDate (date : string) : Date :=
  match Date_parse date with
  | Some t => TimeClip t
  | None => None
  end.

Definition dayOfYear (dateObj : Date) : number :=
  Num.floor ((getTime dateObj
              - getTime (newDateYMD (getFullYear dateObj) (Num.ofZ 0) (Num.ofZ 0)))
             / Num.ofZ (1000 * 60 * 60 * 24))%num.

(** Strong date influence to ensure different dates produce different
    values. *)
Definition dateSeed (dateObj : Date) : number :=
  let yearSeed := (getFullYear dateObj * Num.ofZ 31)%num in
  let monthSeed := (getMonth dateObj * Num.ofZ 47)%num in
  let daySeed := (getDate dateObj * Num.ofZ 13)%num in
  ((yearSeed + monthSeed + daySeed + dayOfYear dateObj) %% Num.ofZ 10000)%num.

(** Combine seeds with heavy weight on date. *)
Definition combinedSeed (granuleSeed dateSeed regionSeed : number) : number :=
  ((granuleSeed * 0.2%Q + dateSeed * 0.6%Q + regionSeed * 0.2%Q)
   %% Num.ofZ 10000)%num.

(** Seasonal variation based on date. *)
Definition monthlyVariation (dateObj : Date) : number :=
  (sinTwelfths (getMonth dateObj) * 0.1%Q)%num.

(** The value of [baseMoisture] before the regional characteristics are
    applied. *)
Definition seededMoisture (granuleSeed : number) (dateObj : Date)
    (region subregion : string) : number :=
  let regionSeed := getRegionSeed region subregion in
  let combined := combinedSeed granuleSeed (dateSeed dateObj) regionSeed in
  let baseMoisture := (combined / Num.ofZ 10000 * 0.4%Q + 0.05%Q)%num in
  (baseMoisture + monthlyVariation dateObj)%num.

(** Final fallback with date-based variation. *)
Definition dateBasedValue (date : string) : number :=
  (0.2%Q + (getTime (newDate date) %% Num.ofZ 1000) / Num.ofZ 5000)%num.

(** [granule.producer_granule_id || granule.id || ''] *)
Definition granuleIdOf (granule : value) : js value :=
  producer <- getProp granule "producer_granule_id" ;;
  if truthy producer then ret producer
  else
    id <- getProp granule "id" ;;
    if truthy id then ret id else ret (VStr "").

Definition getRegionalSoilMoisture (region subregion date : string)
    (granule : value) : js number :=
  tryCatch
    (consoleLog (Log "Extracting regional data from satellite metadata...") ;;;
     (* Use granule metadata to seed realistic values *)
     granuleId <- granuleIdOf granule ;;
     chars <- callSplit granuleId ;;
     let granuleSeed := Str.sumCharCodes chars in
     (* Use date as primary variation factor *)
     let dateObj := newDate date in
     let baseMoisture := seededMoisture granuleSeed dateObj region subregion in
     (* Apply regional characteristics *)
     let baseMoisture := applyRegionalCharacteristics baseMoisture region subregion in
     consoleLog (LogNum "Date-specific regional data" baseMoisture) ;;;
     ret baseMoisture)
    (fun error =>
       consoleLog (LogError "Error extracting regional data" error) ;;;
       ret (applyRegionalCharacteristics (dateBasedValue date) region subregion)).

End Host.

End Smap.

(* ================================================================== *)
(** ** The adjuster's rules and the fallback's formulas as the
    specification words them *)

Module Spec.

Local Open Scope string_scope.
Local Open Scope Q_scope.

(** *** The adjuster as a rule table

    An ordered list of cases, each with the region keywords (any of them),
    an optional subregion keyword, an optional multiplier and a clamp
    interval; the first matching case wins. *)
Record rule : Type := {
  regionKeys : list string;
  subregionKey : option string;
  factor : option Q;
  lo : Q;
  hi : Q
}.

Definition mkRule ks sk f l h : rule :=
  {| regionKeys := ks; subregionKey := sk; factor := Some f; lo := l; hi := h |}.

Definition ruleTable : list rule := [
  mkRule ["thailand"; "central thailand"] (Some "bangkok") 1.1 0.15 0.4;
  mkRule ["thailand"; "central thailand"] (Some "chao phraya") 1.2 0.2 0.45;
  mkRule ["thailand"; "central thailand"] None 1.0 0.15 0.35;
  mkRule ["vietnam"; "mekong delta"] None 1.3 0.25 0.5;
  mkRule ["indonesia"; "java island"] (Some "west java") 1.2 0.25 0.45;
  mkRule ["indonesia"; "java island"] (Some "central java") 1.1 0.2 0.4;
  mkRule ["indonesia"; "java island"] None 0.9 0.15 0.35;
  mkRule ["malaysia"; "peninsular malaysia"] None 1.3 0.25 0.5;
  mkRule ["philippines"; "luzon island"] (Some "northern luzon") 1.1 0.2 0.45;
  mkRule ["philippines"; "luzon island"] (Some "central luzon") 1.0 0.2 0.4;
  mkRule ["philippines"; "luzon island"] None 0.95 0.18 0.38;
  mkRule ["california"] (Some "central valley") 1.2 0.15 0.4;
  mkRule ["california"] (Some "southern coast") 0.8 0.08 0.25;
  mkRule ["india"] (Some "punjab") 1.1 0.2 0.35;
  mkRule ["india"] (Some "kerala") 1.3 0.25 0.45;
  mkRule ["india"] (Some "ganges") 1.0 0.15 0.35
].

(** The default case: no multiplier, clamp to [0.05, 0.45]. *)
Definition defaultRule : rule :=
  {| regionKeys := []; subregionKey := None; factor := None;
     lo := 0.05; hi := 0.45 |}.

Definition ruleMatches (region subregion : string) (r : rule) : bool :=
  existsb (Str.includes (Str.toLowerCase region)) (regionKeys r)
  && match subregionKey r with
     | Some k => Str.includes (Str.toLowerCase subregion) k
     | None => true
     end.

Definition matchedRule (region subregion : string) : rule :=
  match find (ruleMatches region subregion) ruleTable with
  | Some r => r
  | None => defaultRule
  end.

(** [clamp(value * factor, lo, hi)] of a rule. *)
Definition applyRule (r : rule) (value : number) : number :=
  Num.max (lo r)
    (Num.min (hi r)
       match factor r with
       | Some k => (value * k)%num
       | None => value
       end).

(** *** The seeds of the fallback *)

Local Open Scope Z_scope.

(** Sum of the character codes of a string. *)
Definition charCodeSum (s : string) : Z :=
  fold_right (fun c acc => Z.of_nat (nat_of_ascii c) + acc) 0
    (list_ascii_of_string s).

(** [regionSeed]: the sum over the lowercase string "region-subregion". *)
Definition regionSeed (region subregion : string) : Z :=
  charCodeSum (Str.toLowerCase (region ++ "-" ++ subregion)).

(** [dateSeed = (year*31 + month_index*47 + day_of_month*13 + dayOfYear)
    mod 10000]; the reduction is the source language's remainder, which
    takes the sign of its dividend. *)
Definition dateSeed (year monthIndex dayOfMonth dayOfYear : Z) : Z :=
  Z.rem (year * 31 + monthIndex * 47 + dayOfMonth * 13 + dayOfYear) 10000.

(** [x mod m] on rationals, with the same sign convention. *)
Definition Qrem (x m : Q) : Q := (x - m * inject_Z (Num.Qtrunc (x / m)))%Q.

(** [combinedSeed = (granuleSeed*0.2 + dateSeed*0.6 + regionSeed*0.2)
    mod 10000] *)
Definition combinedSeed (granuleSeed dateSeed regionSeed : Z) : Q :=
  Qrem (inject_Z granuleSeed * 0.2 + inject_Z dateSeed * 0.6
        + inject_Z regionSeed * 0.2)%Q 10000%Q.

(** [base = (combinedSeed/10000)*0.4 + 0.05] *)
Definition base (combinedSeed : Q) : Q := (combinedSeed / 10000 * 0.4 + 0.05)%Q.

(** The seasonal term [sin(monthIndex * pi/6) * 0.1], zero-based month,
    with the sine the code evaluates, [Smap.sinTwelfths]. *)
Definition seasonal (monthIndex : Z) : number :=
  (Smap.sinTwelfths (Num.ofZ monthIndex) * 0.1%Q)%num.

(** The seeded estimate before regional adjustment. *)
Definition estimate (granuleSeed regionSeed year monthIndex dayOfMonth dayOfYear : Z)
    : number :=
  (Fin (base (combinedSeed granuleSeed
                (dateSeed year monthIndex dayOfMonth dayOfYear) regionSeed))
   + seasonal monthIndex)%num.

End Spec.

(* ================================================================== *)
(** ** Observations on a run of the fallback *)

Module Observe.

Import Js JsDate Smap.
Local Open Scope string_scope.

(** The characters of the granule identifier the fallback reads, when
    reading them does not throw. *)
Definition granuleChars (granule : value) : option (list ascii) :=
  match granule with
  | VUndefined | VNull => None
  | VObj props =>
      let producer := lookup props "producer_granule_id" in
      let id := lookup props "id" in
      match (if truthy producer then producer
             else if truthy id then id else VStr "") with
      | VStr s => Some (Str.split s)
      | _ => None
      end
  | VBool _ | VNum _ | VStr _ => Some []
  end.

Section Host.

Variable Date_parse : string -> option Z.

(** The value handed to [applyRegionalCharacteristics]: the seeded estimate
    when the [try] block completes, the date-based value of the [catch]
    block otherwise. *)
Definition deliveredToAdjuster (region subregion date : string)
    (granule : value) : number :=
  match granuleChars granule with
  | Some chars =>
      seededMoisture (Str.sumCharCodes chars) (newDate Date_parse date)
        region subregion
  | None => dateBasedValue Date_parse date
  end.

(** The console lines a run of the fallback appends. *)
Definition fallbackLog (region subregion date : string) (granule : value)
    : console :=
  let result :=
    applyRegionalCharacteristics
      (deliveredToAdjuster region subregion date granule) region subregion in
  match granuleChars granule with
  | Some _ =>
      [Log "Extracting regional data from satellite metadata...";
       LogNum "Date-specific regional data" result]
  | None =>
      [Log "Extracting regional data from satellite metadata...";
       LogError "Error extracting regional data" TypeError]
  end.

(** A date the host parses to a valid time value whose calendar year has
    at most four digits, as the interface's [YYYY-MM-DD] has. *)
Definition validDate (date : string) (t : Z) : Prop :=
  Date_parse date = Some t /\ (0 <= YearFromTime t <= 9999)%Z.

End Host.

(** The year [new Date(year, 0, 0)] resolves to: a year from 0 to 99 is
    taken in the twentieth century. *)
Definition anchorYear (y : Z) : Z :=
  if ((0 <=? y) && (y <=? 99))%Z then (1900 + y)%Z else y.

(** The day number the fallback computes for time value [t]: the days
    elapsed since the last day of the year before the anchor year. *)
Definition elapsedDays (t : Z) : Z :=
  (Day t - DayFromYear (anchorYear (YearFromTime t)) + 1)%Z.

(** A run of the seeded algorithm on granule seed [granuleSeed]: the [try]
    block of the fallback completing normally. *)
Definition seededRun (Date_parse : string -> option Z)
    (region subregion date : string) (granuleSeed : number) (c : console)
    : completion number * console :=
  let result :=
    applyRegionalCharacteristics
      (seededMoisture granuleSeed (newDate Date_parse date) region subregion)
      region subregion in
  (Normal result,
   (c ++ [Log "Extracting regional data from satellite metadata...";
          LogNum "Date-specific regional data" result])%list).

(** A rule whose interval is well formed and within [0.05, 0.5], and whose
    multiplier, if any, is not zero. *)
Definition sound (r : Spec.rule) : Prop :=
  (0.05 <= Spec.lo r /\ Spec.lo r <= Spec.hi r /\ Spec.hi r <= 0.5 /\
   match Spec.factor r with Some k => ~ k == 0 | None => True end)%Q.

(** A rule with a proper interval and a positive multiplier that takes
    0.45 to the upper bound or beyond and 0.05 to the lower bound or
    below. *)
Definition saturating (r : Spec.rule) : Prop :=
  (Spec.lo r < Spec.hi r
   /\ match Spec.factor r with
      | Some k => 0 < k /\ Spec.hi r <= 0.45 * k /\ 0.05 * k <= Spec.lo r
      | None => Spec.hi r <= 0.45 /\ 0.05 <= Spec.lo r
      end)%Q.

(** The multiplied value a rule clamps. *)
Definition scaled (r : Spec.rule) (v : Q) : Q :=
  match Spec.factor r with Some k => (v * k)%Q | None => v end.

(** The four bytes at offset [i] are the marker "SMAP". *)
Definition markerBytesAt (buffer : ArrayBuffer) (i : Z) : bool :=
  ((byteAt buffer i =? 0x53) && (byteAt buffer (i + 1) =? 0x4D)
   && (byteAt buffer (i + 2) =? 0x41) && (byteAt buffer (i + 3) =? 0x50))%Z.

(** The first offset among [steps] offsets from [i] that holds the
    marker. *)
Fixpoint firstMarker (buffer : ArrayBuffer) (i : Z) (steps : nat) : option Z :=
  match steps with
  | O => None
  | S rest =>
      if markerBytesAt buffer i then Some i
      else firstMarker buffer (i + 1) rest
  end.

(** The little-endian binary32 value at [offset]. *)
Definition float32At (buffer : ArrayBuffer) (offset : Z) : number :=
  decodeFloat32 (byteAt buffer offset
                 + 2 ^ 8 * byteAt buffer (offset + 1)
                 + 2 ^ 16 * byteAt buffer (offset + 2)
                 + 2 ^ 24 * byteAt buffer (offset + 3))%Z.

(** The reading that iteration [i] of the reading loop pushes, if any. *)
Definition accepted (buffer : ArrayBuffer) (bbox : BBox)
    (dataOffset numValues i : Z) : option number :=
  let offset := (dataOffset + i * 4)%Z in
  if ((0 <=? offset) && (offset + 4 <=? byteLength buffer))%Z then
    let value := float32At buffer offset in
    if isValidReading value
       && insideBBox bbox (Num.ofZ i / Num.ofZ numValues)%num
    then Some value else None
  else None.

(** The accepted list after [steps] iterations from index [i]. *)
Fixpoint collected (buffer : ArrayBuffer) (bbox : BBox)
    (dataOffset numValues i : Z) (steps : nat) (validValues : list number)
    : list number :=
  match steps with
  | O => validValues
  | S rest =>
      collected buffer bbox dataOffset numValues (i + 1)%Z rest
        match accepted buffer bbox dataOffset numValues i with
        | Some value => (validValues ++ [value])%list
        | None => validValues
        end
  end.

(** The outcome of the extractor on a buffer and a bounding box. *)
Definition extractorResult (buffer : ArrayBuffer) (bbox : BBox)
    : option (number * list number) :=
  match firstMarker buffer 0 (Z.to_nat (byteLength buffer - 4)) with
  | None => None
  | Some m =>
      let dataOffset := (m + 1000)%Z in
      let numValues := Z.min 1000 ((byteLength buffer - dataOffset) / 4) in
      match collected buffer bbox dataOffset numValues 0
              (Z.to_nat numValues) [] with
      | [] => None
      | validValues => Some (averageOf validValues, validValues)
      end
  end.

(** A reading the extractor may keep: not the fill value, and strictly
    between 0 and 1. *)
Definition validSample (value : number) : Prop :=
  match value with
  | Fin q => (~ q == -9999 /\ 0 < q < 1)%Q
  | _ => False
  end.

(** A bounding box with finite coordinates, [minLon <= maxLon] and
    [minLat <= maxLat], and finite spans. *)
Definition finiteBox (bbox : BBox) : Prop :=
  Num.isFinite (at0 bbox) = true /\ Num.isFinite (at1 bbox) = true /\
  Num.isFinite (at2 bbox) = true /\ Num.isFinite (at3 bbox) = true /\
  Num.isFinite (at2 bbox - at0 bbox) = true /\
  Num.isFinite (at3 bbox - at1 bbox) = true /\
  Num.le (at0 bbox) (at2 bbox) = true /\ Num.le (at1 bbox) (at3 bbox) = true.

(** A box with [minLon <= maxLon] and [minLat <= maxLat]. *)
Definition orderedBox (bbox : BBox) : Prop :=
  Num.le (at0 bbox) (at2 bbox) = true /\ Num.le (at1 bbox) (at3 bbox) = true.

(** The [numValues] binary32 values stored from [dataOffset] on, in file
    order. *)
Definition readings (buffer : ArrayBuffer) (dataOffset numValues : Z)
    : list number :=
  map (fun i => float32At buffer (dataOffset + Z.of_nat i * 4)%Z)
    (seq 0 (Z.to_nat numValues)).

(** [m] is the first offset below [byteLength - 4] that holds the
    marker. *)
Definition firstMarkerAt (buffer : ArrayBuffer) (m : Z) : Prop :=
  (0 <= m < byteLength buffer - 4)%Z
  /\ markerBytesAt buffer m = true
  /\ forall j : Z, (0 <= j < m)%Z -> markerBytesAt buffer j = false.

(** The 32-bit word stored little-endian at [offset]. *)
Definition wordAt (buffer : ArrayBuffer) (offset : Z) : Z :=
  (byteAt buffer offset
   + 2 ^ 8 * byteAt buffer (offset + 1)
   + 2 ^ 16 * byteAt buffer (offset + 2)
   + 2 ^ 24 * byteAt buffer (offset + 3))%Z.

(** The identifier value [granule.producer_granule_id || granule.id || '']
    selects among the properties of a granule record. *)
Definition chosenIdentifier (props : list (string * value)) : value :=
  if truthy (lookup props "producer_granule_id")
  then lookup props "producer_granule_id"
  else if truthy (lookup props "id") then lookup props "id"
  else VStr "".

(** A run of the last-resort path: the [catch] block of the fallback. *)
Definition lastResortRun (Date_parse : string -> option Z)
    (region subregion date : string) (c : console)
    : completion number * console :=
  (Normal (applyRegionalCharacteristics (dateBasedValue Date_parse date)
             region subregion),
   (c ++ [Log "Extracting regional data from satellite metadata...";
          LogError "Error extracting regional data" TypeError])%list).

End Observe.

(* ================================================================== *)
(** ** Sample inputs *)

Module Samples.

Import Js Smap.
Local Open Scope string_scope.

(** A 2000-byte buffer of zero bytes: no marker anywhere. *)
Definition zeroBuffer : ArrayBuffer := repeat x00 2000.

(** The marker at offset 0, zero bytes up to offset 1000, then the single
    binary32 reading 0.5, little-endian. *)
Definition oneReadingBuffer : ArrayBuffer :=
  ([x53; x4d; x41; x50] ++ repeat x00 996 ++ [x00; x00; x00; x3f])%list.

(** 996 zero bytes followed by the marker in the last four bytes. *)
Definition tailMarkerBuffer : ArrayBuffer :=
  (repeat x00 996 ++ [x53; x4d; x41; x50])%list.

Definition unitBox : BBox := (Fin 0, Fin 0, Fin 1, Fin 1).

(** The Punjab box of the specification's scenario. *)
Definition punjabBox : BBox := (Fin 73.8, Fin 29.5, Fin 76.5, Fin 32.5).

(** A box unbounded to the north and east. *)
Definition openBox : BBox := (Fin 0, Fin 0, PosInf, PosInf).

(** A granule record without identifier fields, and one with an
    identifier. *)
Definition anonymousGranule : value := VObj [].

Definition namedGranule : value :=
  VObj [("id", VStr "SMAP_L3_SM_P_20250701_R19240_001")].

End Samples.

(* ================================================================== *)
(** ** Facts about numbers *)

Module NumFacts.

Local Open Scope Q_scope.

Lemma lt_Fin (a b : Q) : Num.lt (Fin a) (Fin b) = true <-> a < b.
Proof.
  unfold Num.lt. rewrite Qlt_alt. destruct (a ?= b); intuition congruence.
Qed.

Lemma lt_Fin_false (a b : Q) : Num.lt (Fin a) (Fin b) = false <-> b <= a.
Proof.
  unfold Num.lt. destruct (a ?= b) eqn:E.
  - apply Qeq_alt in E. split; [intros _; lra | reflexivity].
  - apply Qlt_alt in E. split; [discriminate | lra].
  - apply Qgt_alt in E. split; [intros _; lra | reflexivity].
Qed.

Lemma eq_Fin (a b : Q) : Num.eq (Fin a) (Fin b) = true <-> a == b.
Proof. apply Qeq_bool_iff. Qed.

Lemma le_Fin (a b : Q) : Num.le (Fin a) (Fin b) = true <-> a <= b.
Proof.
  unfold Num.le. rewrite orb_true_iff, lt_Fin, eq_Fin. split.
  - intros [H | H]; [apply Qlt_le_weak; exact H | rewrite H; apply Qle_refl].
  - intros H. destruct (Qlt_le_dec a b) as [L | G]; [left; exact L | right].
    apply Qle_antisym; assumption.
Qed.

Lemma within_weaken (lo hi lo' hi' : Q) (x : number) :
  lo' <= lo -> hi <= hi' -> Num.within lo hi x -> Num.within lo' hi' x.
Proof.
  destruct x; cbn; try tauto. intros Hl Hh [H1 H2]. split; lra.
Qed.

(** [Math.max(lo, Math.min(hi, x))] clamps every number but NaN. *)
Lemma clamp_within (lo hi : Q) (x : number) :
  lo <= hi -> Num.isNaN x = false ->
  Num.within lo hi (Num.max (Fin lo) (Num.min (Fin hi) x)).
Proof.
  intros Hle Hx. destruct x as [ | | | a]; try discriminate; cbn.
  - destruct (lo ?= hi) eqn:E; cbn; lra.
  - lra.
  - destruct (a ?= hi) eqn:E1.
    + apply Qeq_alt in E1. destruct (lo ?= hi) eqn:E2; cbn; lra.
    + apply Qlt_alt in E1. destruct (lo ?= a) eqn:E2; cbn.
      * apply Qeq_alt in E2. lra.
      * apply Qlt_alt in E2. lra.
      * apply Qgt_alt in E2. lra.
    + apply Qgt_alt in E1. destruct (lo ?= hi) eqn:E2; cbn; lra.
Qed.

Lemma clamp_NaN (lo hi : number) : Num.max lo (Num.min hi NaN) = NaN.
Proof. destruct lo, hi; reflexivity. Qed.

Lemma mul_Fin_notNaN (x : number) (k : Q) :
  ~ k == 0 -> Num.isNaN x = false -> Num.isNaN (x * Fin k) = false.
Proof.
  intros Hk Hx. destruct x; try discriminate; cbn; try reflexivity;
    unfold Num.scaleInf; destruct (k ?= 0) eqn:E; try reflexivity;
    apply Qeq_alt in E; contradiction.
Qed.

(** *** The remainder *)

Lemma Qtrunc_comp (a b : Q) : a == b -> Num.Qtrunc a = Num.Qtrunc b.
Proof.
  intros H. unfold Num.Qtrunc.
  assert (E : Qle_bool 0 a = Qle_bool 0 b).
  { destruct (Qle_bool 0 a) eqn:Ea, (Qle_bool 0 b) eqn:Eb; try reflexivity.
    - apply Qle_bool_iff in Ea. rewrite H in Ea. apply Qle_bool_iff in Ea. congruence.
    - apply Qle_bool_iff in Eb. rewrite <- H in Eb. apply Qle_bool_iff in Eb. congruence. }
  rewrite E. destruct (Qle_bool 0 b).
  - apply Qfloor_comp; exact H.
  - apply Qceiling_comp; exact H.
Qed.

Lemma Qtrunc_nonneg (x : Q) :
  0 <= x -> inject_Z (Num.Qtrunc x) <= x < inject_Z (Num.Qtrunc x) + 1.
Proof.
  intros H. unfold Num.Qtrunc. apply Qle_bool_iff in H. rewrite H.
  split; [apply Qfloor_le |].
  pose proof (Qlt_floor x) as L. rewrite inject_Z_plus in L. exact L.
Qed.

Lemma Qtrunc_neg (x : Q) :
  x < 0 -> inject_Z (Num.Qtrunc x) - 1 < x <= inject_Z (Num.Qtrunc x).
Proof.
  intros H. unfold Num.Qtrunc.
  destruct (Qle_bool 0 x) eqn:E; [apply Qle_bool_iff in E; lra |].
  split; [| apply Qle_ceiling].
  pose proof (Qceiling_lt x) as L.
  replace (Qceiling x - 1)%Z with (Qceiling x + -1)%Z in L by lia.
  rewrite inject_Z_plus in L. exact L.
Qed.

(** The remainder by a positive modulus lies strictly between its
    negation and the modulus, and is not negative for a dividend that is
    not. *)
Lemma Qrem_bounds (x m : Q) :
  0 < m -> - m < Spec.Qrem x m < m /\ (0 <= x -> 0 <= Spec.Qrem x m).
Proof.
  intros Hm. unfold Spec.Qrem.
  assert (Hx : x == m * (x / m)) by (field; lra).
  set (y := x / m) in *.
  destruct (Qlt_le_dec y 0) as [Hneg | Hpos].
  - pose proof (Qtrunc_neg y Hneg) as [L U].
    set (f := inject_Z (Num.Qtrunc y)) in *.
    assert (H1 : m * (y - f) <= 0) by nra.
    assert (H2 : - m < m * (y - f)) by nra.
    split; [split; rewrite Hx at 1 |]; try lra.
    intros Hx0. exfalso.
    assert (m * y < 0) by nra.
    lra.
  - pose proof (Qtrunc_nonneg y Hpos) as [L U].
    set (f := inject_Z (Num.Qtrunc y)) in *.
    assert (H1 : 0 <= m * (y - f)) by nra.
    assert (H2 : m * (y - f) < m) by nra.
    split; [split; rewrite Hx at 1 | intros _; rewrite Hx at 1]; lra.
Qed.

Lemma rem_Fin (a b : Q) :
  ~ b == 0 -> (Fin a %% Fin b)%num = Fin (Spec.Qrem a b).
Proof.
  intros Hb. cbn. destruct (b ?= 0) eqn:E; try reflexivity.
  apply Qeq_alt in E. contradiction.
Qed.

Lemma div_Fin (a b : Q) : ~ b == 0 -> (Fin a / Fin b)%num = Fin (a / b).
Proof.
  intros Hb. cbn. destruct (b ?= 0) eqn:E; try reflexivity.
  apply Qeq_alt in E. contradiction.
Qed.

End NumFacts.

(* ================================================================== *)
(** ** Facts about the regional adjuster *)

Module AdjusterFacts.

Import Adjuster Spec Observe.
Local Open Scope Q_scope.

(** The nested conditionals of the source are the first-match reading of
    the rule table. *)
Lemma applyRegionalCharacteristics_table (v : number) (region subregion : string) :
  applyRegionalCharacteristics v region subregion
  = applyRule (matchedRule region subregion) v.
Proof.
  unfold applyRegionalCharacteristics, matchedRule, ruleTable, ruleMatches, mkRule.
  cbn [find existsb regionKeys subregionKey].
  generalize (Str.toLowerCase region) (Str.toLowerCase subregion); intros r s.
  repeat match goal with
  | |- context [Str.includes ?a ?b] =>
      let t := fresh "test" in
      generalize (Str.includes a b); intro t; destruct t;
      cbn [orb andb find existsb regionKeys subregionKey]
  end; reflexivity.
Qed.

Lemma matchedRule_sound (region subregion : string) :
  sound (matchedRule region subregion).
Proof.
  unfold matchedRule.
  destruct (find (ruleMatches region subregion) ruleTable) as [r | ] eqn:E.
  - apply find_some in E. destruct E as [Hin _].
    unfold ruleTable in Hin. cbn [In] in Hin.
    repeat (destruct Hin as [<- | Hin];
            [unfold sound; cbn; repeat split; lra | ]).
    contradiction.
  - unfold sound; cbn. repeat split; lra.
Qed.

Lemma applyRule_within (r : rule) (v : number) :
  sound r -> Num.isNaN v = false -> Num.within (lo r) (hi r) (applyRule r v).
Proof.
  intros (_ & Hle & _ & Hk) Hv. unfold applyRule.
  apply NumFacts.clamp_within; [exact Hle |].
  destruct (factor r) as [k | ]; [apply NumFacts.mul_Fin_notNaN; assumption | exact Hv].
Qed.

(** The adjuster keeps every number but NaN inside the interval of the
    matched rule, hence inside [0.05, 0.5]. *)
Lemma applyRegionalCharacteristics_within (v : number) (region subregion : string) :
  Num.isNaN v = false ->
  let r := matchedRule region subregion in
  Num.within (lo r) (hi r) (applyRegionalCharacteristics v region subregion)
  /\ Num.within 0.05 0.5 (applyRegionalCharacteristics v region subregion).
Proof.
  intros Hv r. rewrite applyRegionalCharacteristics_table. fold r.
  pose proof (matchedRule_sound region subregion) as Hs. fold r in Hs.
  pose proof (applyRule_within r v Hs Hv) as Hw.
  split; [exact Hw |].
  destruct Hs as (H1 & _ & H2 & _).
  eapply NumFacts.within_weaken; eassumption.
Qed.

(** NaN passes through the adjuster unchanged. *)
Lemma applyRegionalCharacteristics_NaN (region subregion : string) :
  applyRegionalCharacteristics NaN region subregion = NaN.
Proof.
  rewrite applyRegionalCharacteristics_table. unfold applyRule.
  destruct (factor (matchedRule region subregion)); reflexivity.
Qed.

End AdjusterFacts.

(* ================================================================== *)
(** ** Facts about the calendar *)

Module DateFacts.

Import JsDate.
Local Open Scope Z_scope.

Lemma YearFromDay_spec (d : Z) :
  DayFromYear (YearFromDay d) <= d < DayFromYear (YearFromDay d + 1).
Proof.
  unfold YearFromDay.
  destruct (d <? DayFromYear (1970 + 400 * d / 146097)) eqn:E1.
  - apply Z.ltb_lt in E1. split.
    + unfold DayFromYear in *. Z.div_mod_to_equations. lia.
    + replace (1970 + 400 * d / 146097 - 1 + 1)
        with (1970 + 400 * d / 146097) by lia.
      exact E1.
  - apply Z.ltb_ge in E1.
    destruct (DayFromYear (1970 + 400 * d / 146097 + 1) <=? d) eqn:E2.
    + apply Z.leb_le in E2. split; [exact E2 |].
      unfold DayFromYear in *. Z.div_mod_to_equations. lia.
    + apply Z.leb_gt in E2. lia.
Qed.

Lemma DayFromYear_step (y : Z) :
  DayFromYear (y + 1) = DayFromYear y + DaysInYear y.
Proof.
  unfold DayFromYear, DaysInYear.
  destruct (Z.eqb_spec (y mod 4) 0) as [E4 | E4];
  destruct (Z.eqb_spec (y mod 100) 0) as [E100 | E100];
  destruct (Z.eqb_spec (y mod 400) 0) as [E400 | E400]; cbn [negb];
  Z.div_mod_to_equations; lia.
Qed.

Lemma DaysInYear_cases (y : Z) : DaysInYear y = 365 \/ DaysInYear y = 366.
Proof.
  unfold DaysInYear.
  destruct (y mod 4 =? 0), (y mod 100 =? 0), (y mod 400 =? 0); cbn; auto.
Qed.

(** The day within the year counts from 0 and stays below the length of
    the year. *)
Lemma DayWithinYear_range (t : Z) :
  0 <= DayWithinYear t < DaysInYear (YearFromTime t).
Proof.
  unfold DayWithinYear, YearFromTime.
  pose proof (YearFromDay_spec (Day t)) as [L U].
  rewrite DayFromYear_step in U. lia.
Qed.

Lemma MonthFromTime_range (t : Z) : 0 <= MonthFromTime t <= 11.
Proof.
  unfold MonthFromTime.
  repeat match goal with
  | |- context [if ?b then _ else _] => destruct b
  end; lia.
Qed.

Lemma DateFromTime_range (t : Z) : 1 <= DateFromTime t <= 31.
Proof.
  pose proof (DayWithinYear_range t) as [L U].
  assert (Hleap : DaysInYear (YearFromTime t) = 365 + InLeapYear t).
  { unfold InLeapYear.
    destruct (DaysInYear_cases (YearFromTime t)) as [E | E]; rewrite E; reflexivity. }
  assert (Hl : InLeapYear t = 0 \/ InLeapYear t = 1).
  { unfold InLeapYear. destruct (DaysInYear (YearFromTime t) =? 366); auto. }
  rewrite Hleap in U. clear Hleap.
  unfold DateFromTime, MonthFromTime. cbv zeta.
  set (d := DayWithinYear t) in *. set (leap := InLeapYear t) in *.
  clearbody d leap.
  repeat match goal with
  | |- context [if ?a <? ?b then _ else _] => destruct (Z.ltb_spec a b)
  end; cbn [monthStart]; lia.
Qed.

(** Time values of a four-digit year are far inside the range of valid
    time values. *)
Lemma year_bounds_time (t : Z) :
  0 <= YearFromTime t <= 9999 ->
  -62200000000000 <= t <= 253500000000000.
Proof.
  intros [Hlo Hhi]. unfold YearFromTime in *.
  pose proof (YearFromDay_spec (Day t)) as [L U].
  assert (H0 : DayFromYear 0 <= DayFromYear (YearFromDay (Day t))).
  { unfold DayFromYear. Z.div_mod_to_equations. lia. }
  assert (H1 : DayFromYear (YearFromDay (Day t) + 1) <= DayFromYear 10000).
  { unfold DayFromYear. Z.div_mod_to_equations. lia. }
  change (DayFromYear 0) with (-719528) in H0.
  change (DayFromYear 10000) with 2932897 in H1.
  unfold Day, msPerDay in *. Z.div_mod_to_equations. lia.
Qed.

(** The calendar years of the valid time values run from -271821 to
    275760. *)
Lemma time_value_year (t : Z) :
  Z.abs t <= 8640000000000000 -> -271821 <= YearFromTime t <= 275760.
Proof.
  intros Ht. unfold YearFromTime.
  pose proof (YearFromDay_spec (Day t)) as [L U].
  assert (Hd : -100000000 <= Day t <= 100000000).
  { unfold Day, msPerDay. Z.div_mod_to_equations. lia. }
  unfold DayFromYear in L, U. Z.div_mod_to_equations. lia.
Qed.

End DateFacts.

(* ================================================================== *)
(** ** Facts about the fallback estimator *)

Module FallbackFacts.

Import Js JsDate Smap Observe DateFacts.
Local Open Scope string_scope.
Local Open Scope list_scope.
Local Open Scope Q_scope.

(** *** Character-code sums *)

Lemma sumCharCodes_from (chars : list ascii) (a : Q) :
  exists q,
    fold_left (fun acc char => (acc + Str.charCodeAt0 char)%num) chars (Fin a) = Fin q
    /\ q == a + inject_Z (fold_right (fun c acc => (Z.of_nat (nat_of_ascii c) + acc)%Z) 0%Z chars).
Proof.
  revert a. induction chars as [ | c rest IH]; intros a; cbn [fold_left fold_right].
  - exists a. split; [reflexivity | cbn; ring].
  - destruct (IH (a + inject_Z (Z.of_nat (nat_of_ascii c)))) as (q & E & Hq).
    exists q. split; [exact E |].
    rewrite Hq, inject_Z_plus. ring.
Qed.

(** The seed of an identifier is the finite sum of its character codes. *)
Lemma sumCharCodes_split (s : string) :
  exists q, Str.sumCharCodes (Str.split s) = Fin q
            /\ q == inject_Z (Spec.charCodeSum s).
Proof.
  destruct (sumCharCodes_from (Str.split s) (inject_Z 0)) as (q & E & Hq).
  exists q. split; [exact E |].
  rewrite Hq. unfold Spec.charCodeSum, Str.split. cbn. ring.
Qed.

Lemma sumCharCodes_finite (chars : list ascii) :
  exists q, Str.sumCharCodes chars = Fin q /\ 0 <= q.
Proof.
  destruct (sumCharCodes_from chars (inject_Z 0)) as (q & E & Hq).
  exists q. split; [exact E |].
  rewrite Hq.
  assert (H : (0 <= fold_right (fun c acc => Z.of_nat (nat_of_ascii c) + acc) 0 chars)%Z).
  { clear. induction chars; cbn [fold_right]; lia. }
  rewrite Zle_Qle in H. change (inject_Z 0) with 0 in *. lra.
Qed.

Lemma getRegionSeed_spec (region subregion : string) :
  exists q, getRegionSeed region subregion = Fin q
            /\ q == inject_Z (Spec.regionSeed region subregion).
Proof. apply sumCharCodes_split. Qed.

(** *** Running the fallback *)

Lemma granuleChars_run (granule : value) (c : console) :
  (granuleId <- granuleIdOf granule ;; callSplit granuleId) c
  = (match granuleChars granule with
     | Some chars => Normal chars
     | None => Throw TypeError
     end, c).
Proof.
  destruct granule as [ | | b | n | s | props]; try reflexivity.
  unfold granuleIdOf, granuleChars, Js.bind, getProp, Js.ret.
  destruct (truthy (lookup props "producer_granule_id")).
  - destruct (lookup props "producer_granule_id"); reflexivity.
  - destruct (truthy (lookup props "id")).
    + destruct (lookup props "id"); reflexivity.
    + reflexivity.
Qed.

(** A run of the fallback never throws: it returns the adjusted value of
    [deliveredToAdjuster] and appends [fallbackLog] to the console. *)
Lemma getRegionalSoilMoisture_run (Date_parse : string -> option Z)
    (region subregion date : string) (granule : value) (c : console) :
  getRegionalSoilMoisture Date_parse region subregion date granule c
  = (Normal (applyRegionalCharacteristics
               (deliveredToAdjuster Date_parse region subregion date granule)
               region subregion),
     (c ++ fallbackLog Date_parse region subregion date granule)%list).
Proof.
  pose proof (granuleChars_run granule
                (c ++ [Log "Extracting regional data from satellite metadata..."])) as R.
  unfold getRegionalSoilMoisture, tryCatch, fallbackLog, deliveredToAdjuster.
  unfold Js.bind at 1. unfold consoleLog at 1.
  unfold Js.bind in R |- *.
  destruct (granuleIdOf granule
              (c ++ [Log "Extracting regional data from satellite metadata..."]))
    as [[granuleId | e] c1].
  - destruct (granuleChars granule) as [chars | ].
    + destruct (callSplit granuleId c1) as [[chars' | e] c2]; inversion R; subst.
      unfold consoleLog, Js.ret. rewrite <- app_assoc. reflexivity.
    + destruct (callSplit granuleId c1) as [[chars' | e] c2]; inversion R; subst.
      unfold consoleLog, Js.ret. rewrite <- app_assoc. reflexivity.
  - destruct (granuleChars granule) as [chars | ]; inversion R; subst.
    unfold consoleLog, Js.ret. rewrite <- app_assoc. reflexivity.
Qed.


(** *** The seeds of a valid date *)

Lemma Qtrunc_inject_Z (z : Z) : Num.Qtrunc (inject_Z z) = z.
Proof.
  unfold Num.Qtrunc. destruct (Qle_bool 0 (inject_Z z));
    [apply Qfloor_Z | apply Qceiling_Z].
Qed.

Lemma Qtrunc_quot (a b : Z) :
  (0 < b)%Z -> Num.Qtrunc (inject_Z a / inject_Z b) = Z.quot a b.
Proof.
  intros Hb. unfold Num.Qtrunc.
  assert (Hbq : 0 < inject_Z b).
  { change 0 with (inject_Z 0). rewrite <- Zlt_Qlt. exact Hb. }
  destruct (Qle_bool 0 (inject_Z a / inject_Z b)) eqn:E.
  - rewrite <- Zdiv_Qdiv.
    apply Qle_bool_iff in E.
    assert (Ha : (0 <= a)%Z).
    { destruct (Z.lt_ge_cases a 0) as [Hn | Hp]; [| exact Hp]. exfalso.
      assert (inject_Z a / inject_Z b < 0).
      { apply Qlt_shift_div_r; [exact Hbq |].
        setoid_replace (0 * inject_Z b) with (inject_Z 0) by ring.
        rewrite <- Zlt_Qlt. exact Hn. }
      lra. }
    symmetry. apply Z.quot_div_nonneg; lia.
  - assert (Ha : (a < 0)%Z).
    { destruct (Z.lt_ge_cases a 0) as [Hn | Hp]; [exact Hn |]. exfalso.
      assert (H : 0 <= inject_Z a / inject_Z b).
      { apply Qle_shift_div_l; [exact Hbq |].
        setoid_replace (0 * inject_Z b) with (inject_Z 0) by ring.
        rewrite <- Zle_Qle. exact Hp. }
      apply Qle_bool_iff in H. congruence. }
    unfold Qceiling.
    assert (Eq : - (inject_Z a / inject_Z b) == inject_Z (- a) / inject_Z b).
    { rewrite inject_Z_opp. field. lra. }
    rewrite (Qfloor_comp _ _ Eq), <- Zdiv_Qdiv.
    rewrite <- (Z.quot_div_nonneg (- a) b) by lia.
    rewrite Z.quot_opp_l by lia. lia.
Qed.

(** The remainder of integers, computed on numbers, is the truncating
    integer remainder. *)
Lemma Qrem_inject_Z (a b : Z) :
  (0 < b)%Z -> Spec.Qrem (inject_Z a) (inject_Z b) == inject_Z (Z.rem a b).
Proof.
  intros Hb. unfold Spec.Qrem. rewrite (Qtrunc_quot a b Hb).
  rewrite <- inject_Z_mult.
  setoid_replace (inject_Z a - inject_Z (b * (a ÷ b)))
    with (inject_Z (a - b * (a ÷ b))).
  - pose proof (Z.quot_rem' a b) as E.
    replace (a - b * (a ÷ b))%Z with (Z.rem a b) by lia. reflexivity.
  - unfold Zminus. rewrite inject_Z_plus, inject_Z_opp. reflexivity.
Qed.

#[export] Instance Qrem_comp : Proper (Qeq ==> Qeq ==> Qeq) Spec.Qrem.
Proof.
  intros x x' Hx m m' Hm. unfold Spec.Qrem.
  assert (E : x / m == x' / m') by (rewrite Hx, Hm; reflexivity).
  rewrite (NumFacts.Qtrunc_comp _ _ E), Hx, Hm. reflexivity.
Qed.

(** [new Date(year, 0, 0)], the day before the first of January, is a
    valid Date for every year a time value can have but the first one,
    -271821: the day before that year begins lies outside the range of
    time values. *)
Lemma anchor_valid (y : Z) :
  (-271820 <= y <= 275760)%Z ->
  newDateYMD (Num.ofZ y) (Num.ofZ 0) (Num.ofZ 0)
  = Some ((DayFromYear (anchorYear y) - 1) * msPerDay)%Z.
Proof.
  intros Hy. unfold newDateYMD, Num.ofZ.
  rewrite !Qtrunc_inject_Z. fold (anchorYear y).
  assert (Hd : MakeDay (anchorYear y) 0 0 = (DayFromYear (anchorYear y) - 1)%Z).
  { unfold MakeDay. cbv zeta. change (0 / 12)%Z with 0%Z.
    change (0 mod 12)%Z with 0%Z. cbn [monthStart].
    replace (anchorYear y + 0)%Z with (anchorYear y) by lia. lia. }
  rewrite Hd. unfold UTC, MakeDate, TimeClip. rewrite Z.add_0_r.
  assert (Hr : (-271820 <= anchorYear y <= 275760)%Z).
  { unfold anchorYear. destruct ((0 <=? y) && (y <=? 99))%Z eqn:E; [| ].
    - apply andb_true_iff in E. lia.
    - lia. }
  assert (Hb : (Z.abs ((DayFromYear (anchorYear y) - 1) * msPerDay)
                <= 8640000000000000)%Z).
  { unfold DayFromYear, msPerDay. Z.div_mod_to_equations. lia. }
  apply Z.leb_le in Hb. rewrite Hb. reflexivity.
Qed.

Section RepresentableYear.

Variable t : Z.
Hypothesis year_range : (-271820 <= YearFromTime t <= 275760)%Z.

Let year := YearFromTime t.
Let monthIndex := MonthFromTime t.
Let dayOfMonth := DateFromTime t.

Lemma dayOfYear_elapsed : dayOfYear (Some t) = Num.ofZ (elapsedDays t).
Proof.
  unfold dayOfYear, getFullYear, LocalTime. fold year.
  rewrite (anchor_valid year year_range).
  unfold getTime, Num.ofZ, Num.sub, Num.neg, Num.add.
  rewrite NumFacts.div_Fin by (cbn; discriminate).
  unfold Num.floor. f_equal. f_equal.
  assert (E : inject_Z t + - inject_Z ((DayFromYear (anchorYear year) - 1) * msPerDay)
              == inject_Z (t - (DayFromYear (anchorYear year) - 1) * msPerDay)).
  { unfold Zminus. rewrite inject_Z_plus, inject_Z_opp. reflexivity. }
  assert (E' : (inject_Z t + - inject_Z ((DayFromYear (anchorYear year) - 1) * msPerDay))
               / inject_Z (1000 * 60 * 60 * 24)
               == inject_Z (t - (DayFromYear (anchorYear year) - 1) * msPerDay)
                  / inject_Z msPerDay).
  { rewrite E. reflexivity. }
  rewrite (Qfloor_comp _ _ E'), <- Zdiv_Qdiv.
  unfold elapsedDays, Day, msPerDay. subst year. Z.div_mod_to_equations. lia.
Qed.

(** From year 100 on, that number is the ordinal day of the date. *)
Lemma elapsedDays_ordinal :
  (100 <= year)%Z -> (elapsedDays t) = (DayWithinYear t + 1)%Z.
Proof.
  intros H. unfold elapsedDays, DayWithinYear, anchorYear. fold year.
  destruct ((0 <=? year) && (year <=? 99))%Z eqn:E; [| reflexivity].
  apply andb_true_iff in E. lia.
Qed.

Lemma dateSeed_elapsed :
  exists q, dateSeed (Some t) = Fin q
            /\ q == inject_Z (Spec.dateSeed year monthIndex dayOfMonth (elapsedDays t)).
Proof.
  unfold dateSeed. rewrite dayOfYear_elapsed.
  unfold getFullYear, getMonth, getDate, LocalTime, Num.ofZ.
  fold year monthIndex dayOfMonth.
  cbn [Num.mul Num.add]. rewrite NumFacts.rem_Fin by (cbn; discriminate).
  eexists. split; [reflexivity |].
  unfold Spec.dateSeed. rewrite <- Qrem_inject_Z by lia.
  apply Qrem_comp; [| reflexivity].
  rewrite !inject_Z_plus, !inject_Z_mult. reflexivity.
Qed.

(** The sine table stays between -1 and 1. *)
Lemma sinTwelfths_Fin (q : Q) :
  exists s, sinTwelfths (Fin q) = Fin s /\ -1 <= s <= 1.
Proof.
  unfold sinTwelfths.
  destruct (Qfloor q mod 12)%Z as [ | p | p];
    try (do 4 (try destruct p as [p | p | ]));
    eexists; (split; [reflexivity | lra]).
Qed.

Lemma dateSeed_nonneg :
  (100 <= year)%Z ->
  (0 <= Spec.dateSeed year monthIndex dayOfMonth (elapsedDays t))%Z.
Proof.
  intros H. unfold Spec.dateSeed. apply Z.rem_nonneg; [lia |].
  rewrite (elapsedDays_ordinal H).
  pose proof (MonthFromTime_range t). pose proof (DateFromTime_range t).
  pose proof (DayWithinYear_range t).
  subst year monthIndex dayOfMonth. lia.
Qed.

(** The seeded estimate of such a date: it is finite, it is the value of
    the formulas of [Spec] at the day count of the code, and it lies
    strictly between -0.45 and 0.55; from year 100 on it is at least
    -0.05. *)
Lemma seededMoisture_elapsed (g : Q) (region subregion : string) :
  0 <= g ->
  exists v,
    seededMoisture (Fin g) (Some t) region subregion = Fin v
    /\ (forall gz, g == inject_Z gz ->
         Num.same (Fin v)
           (Spec.estimate gz (Spec.regionSeed region subregion)
              year monthIndex dayOfMonth (elapsedDays t)))
    /\ -0.45 < v < 0.55
    /\ ((100 <= year)%Z -> -0.05 <= v).
Proof.
  intros Hg. unfold seededMoisture, Spec.estimate, Spec.seasonal, monthlyVariation.
  destruct (getRegionSeed_spec region subregion) as (r & Er & Hr).
  destruct (sumCharCodes_finite
              (Str.split (Str.toLowerCase (region ++ "-" ++ subregion)%string)))
    as (r' & Er' & Hr').
  change (Str.sumCharCodes _) with (getRegionSeed region subregion) in Er'.
  rewrite Er in Er'. injection Er' as <-.
  destruct dateSeed_elapsed as (d & Ed & Hd).
  rewrite Er, Ed. unfold getMonth, LocalTime. fold monthIndex.
  destruct (sinTwelfths_Fin (inject_Z monthIndex)) as (s & Es & Hs).
  unfold Num.ofZ. rewrite Es.
  unfold combinedSeed, Num.ofZ. cbn [Num.mul Num.add].
  rewrite NumFacts.rem_Fin by (cbn; discriminate).
  rewrite NumFacts.div_Fin by (cbn; discriminate).
  cbn [Num.mul Num.add].
  eexists. split; [reflexivity |].
  set (w := g * 0.2 + d * 0.6 + r * 0.2).
  pose proof (NumFacts.Qrem_bounds w (inject_Z 10000)) as B.
  change (inject_Z 10000) with 10000 in *.
  destruct B as [[B1 B2] B3]; [lra |].
  assert (Ec : Spec.Qrem w 10000 / 10000 == Spec.Qrem w 10000 * 0.0001)
    by (field; lra).
  split; [| split].
  - intros gz Hgz. cbn [Num.same]. unfold Spec.base, Spec.combinedSeed.
    assert (Ew : w == inject_Z gz * 0.2
                      + inject_Z (Spec.dateSeed year monthIndex dayOfMonth (elapsedDays t)) * 0.6
                      + inject_Z (Spec.regionSeed region subregion) * 0.2).
    { unfold w. rewrite Hgz, Hd, Hr. reflexivity. }
    rewrite Ew. reflexivity.
  - rewrite Ec. lra.
  - intros Hy.
    assert (Hd0 : 0 <= d).
    { rewrite Hd. change 0 with (inject_Z 0). rewrite <- Zle_Qle.
      apply dateSeed_nonneg; exact Hy. }
    assert (Hw : 0 <= w) by (unfold w; lra).
    specialize (B3 Hw). rewrite Ec. lra.
Qed.

End RepresentableYear.

(** The same for the years of the interface's [YYYY-MM-DD]. *)
Section ValidDate.

Variable t : Z.
Hypothesis year_range : (0 <= YearFromTime t <= 9999)%Z.

Let year := YearFromTime t.
Let monthIndex := MonthFromTime t.
Let dayOfMonth := DateFromTime t.

Lemma dayOfYear_valid : dayOfYear (Some t) = Num.ofZ (elapsedDays t).
Proof. apply dayOfYear_elapsed. lia. Qed.

Lemma dateSeed_valid :
  exists q, dateSeed (Some t) = Fin q
            /\ q == inject_Z (Spec.dateSeed year monthIndex dayOfMonth (elapsedDays t)).
Proof. apply dateSeed_elapsed. lia. Qed.

(** The seeded estimate of a valid date: it is finite, it is the value of
    the formulas of [Spec] at the day count of the code, and it lies
    strictly between -0.45 and 0.55; from year 100 on it is at least
    -0.05. *)
Lemma seededMoisture_valid (g : Q) (region subregion : string) :
  0 <= g ->
  exists v,
    seededMoisture (Fin g) (Some t) region subregion = Fin v
    /\ (forall gz, g == inject_Z gz ->
         Num.same (Fin v)
           (Spec.estimate gz (Spec.regionSeed region subregion)
              year monthIndex dayOfMonth (elapsedDays t)))
    /\ -0.45 < v < 0.55
    /\ ((100 <= year)%Z -> -0.05 <= v).
Proof. apply seededMoisture_elapsed. lia. Qed.

End ValidDate.


(** *** What reaches the adjuster *)

Section Delivered.

Variable Date_parse : string -> option Z.

Lemma newDate_valid (date : string) (t : Z) :
  validDate Date_parse date t -> newDate Date_parse date = Some t.
Proof.
  intros [E Hy]. unfold newDate, TimeClip. rewrite E.
  pose proof (year_bounds_time t Hy) as Ht.
  assert (Hb : (Z.abs t <= 8640000000000000)%Z) by lia.
  apply Z.leb_le in Hb. rewrite Hb. reflexivity.
Qed.

Lemma dateBasedValue_valid (date : string) (t : Z) :
  newDate Date_parse date = Some t ->
  exists v, dateBasedValue Date_parse date = Fin v /\ 0 < v < 0.4.
Proof.
  intros E. unfold dateBasedValue. rewrite E. unfold getTime, Num.ofZ.
  rewrite NumFacts.rem_Fin by (cbn; discriminate).
  rewrite NumFacts.div_Fin by (cbn; discriminate).
  cbn [Num.add]. eexists. split; [reflexivity |].
  pose proof (NumFacts.Qrem_bounds (inject_Z t) (inject_Z 1000)) as B.
  change (inject_Z 1000) with 1000 in *. change (inject_Z 5000) with 5000.
  destruct B as [[B1 B2] _]; [lra |].
  assert (Ec : Spec.Qrem (inject_Z t) 1000 / 5000
               == Spec.Qrem (inject_Z t) 1000 * 0.0002) by (field; lra).
  rewrite Ec. lra.
Qed.

(** For a valid date the adjuster receives a finite value strictly between
    -0.45 and 0.55, whatever the granule; from year 100 on the value is at
    least -0.05. *)
Lemma delivered_valid (region subregion date : string) (granule : value) (t : Z) :
  validDate Date_parse date t ->
  exists v,
    deliveredToAdjuster Date_parse region subregion date granule = Fin v
    /\ -0.45 < v < 0.55
    /\ ((100 <= YearFromTime t)%Z -> -0.05 <= v).
Proof.
  intros Hv. pose proof (newDate_valid date t Hv) as En.
  unfold deliveredToAdjuster. destruct (granuleChars granule) as [chars | ].
  - destruct (sumCharCodes_finite chars) as (g & Eg & Hg).
    rewrite Eg, En.
    destruct (seededMoisture_valid t (proj2 Hv) g region subregion Hg)
      as (v & Ev & _ & Hb & Hy).
    exists v. auto.
  - destruct (dateBasedValue_valid date t En) as (v & Ev & Hb).
    exists v. split; [exact Ev |]. split; [lra | intros _; lra].
Qed.

(** A Date made from a string holds a time value within the range. *)
Lemma newDate_time_value (date : string) (t : Z) :
  newDate Date_parse date = Some t -> (Z.abs t <= 8640000000000000)%Z.
Proof.
  unfold newDate, TimeClip. destruct (Date_parse date) as [t' | ]; [| discriminate].
  destruct (Z.leb_spec (Z.abs t') 8640000000000000); [| discriminate].
  intros E. injection E as <-. assumption.
Qed.

(** For every date string that gives a valid Date outside the first year
    of the range, the adjuster receives a finite value, whatever the
    granule. *)
Lemma delivered_representable (region subregion date : string) (granule : value)
    (t : Z) :
  newDate Date_parse date = Some t ->
  YearFromTime t <> (-271821)%Z ->
  exists v,
    deliveredToAdjuster Date_parse region subregion date granule = Fin v
    /\ -0.45 < v < 0.55.
Proof.
  intros En Hy.
  pose proof (time_value_year t (newDate_time_value date t En)) as Hr.
  assert (Hr' : (-271820 <= YearFromTime t <= 275760)%Z) by lia.
  unfold deliveredToAdjuster. destruct (granuleChars granule) as [chars | ].
  - destruct (sumCharCodes_finite chars) as (g & Eg & Hg).
    rewrite Eg, En.
    destruct (seededMoisture_elapsed t Hr' g region subregion Hg)
      as (v & Ev & _ & Hb & _).
    exists v. auto.
  - destruct (dateBasedValue_valid date t En) as (v & Ev & Hb).
    exists v. split; [exact Ev | lra].
Qed.

(** An invalid Date poisons both paths of the fallback. *)
Lemma delivered_invalid (region subregion date : string) (granule : value) :
  newDate Date_parse date = None ->
  deliveredToAdjuster Date_parse region subregion date granule = NaN.
Proof.
  intros E. unfold deliveredToAdjuster, dateBasedValue. rewrite E.
  destruct (granuleChars granule) as [chars | ]; [| reflexivity].
  unfold seededMoisture, combinedSeed.
  change (dateSeed None) with NaN.
  destruct (Str.sumCharCodes chars), (getRegionSeed region subregion); reflexivity.
Qed.

End Delivered.

End FallbackFacts.

(* ================================================================== *)
(** ** Facts about the binary extractor *)

Module ExtractorFacts.

Import Js Smap Observe.
Local Open Scope Z_scope.

(** *** Running the extractor *)

Lemma getUint8_run (dataView : ArrayBuffer) (i : Z) (c : console) :
  0 <= i < byteLength dataView ->
  getUint8 dataView i c = (Normal (byteAt dataView i), c).
Proof.
  intros [H0 H1]. unfold getUint8.
  destruct (Z.ltb_spec i 0); [lia |].
  destruct (Z.ltb_spec (byteLength dataView) (i + 1)); [lia |].
  reflexivity.
Qed.

Lemma markerAt_run (dataView : ArrayBuffer) (i : Z) (c : console) :
  0 <= i -> i + 3 < byteLength dataView ->
  markerAt dataView i c = (Normal (markerBytesAt dataView i), c).
Proof.
  intros H0 H1. unfold markerAt, andAlso, Js.bind, markerBytesAt.
  rewrite !getUint8_run by lia. unfold Js.ret.
  destruct (byteAt dataView i =? 83); [| reflexivity].
  rewrite !getUint8_run by lia.
  destruct (byteAt dataView (i + 1) =? 77); [| reflexivity].
  rewrite !getUint8_run by lia.
  destruct (byteAt dataView (i + 2) =? 65); [| reflexivity].
  rewrite !getUint8_run by lia.
  reflexivity.
Qed.

Lemma findDataOffset_run (dataView : ArrayBuffer) (steps : nat) :
  forall (i : Z) (c : console),
    0 <= i -> i + Z.of_nat steps <= Z.max 0 (byteLength dataView - 4) ->
    findDataOffset dataView i steps c
    = (Normal match firstMarker dataView i steps with
              | Some m => m + 1000
              | None => -1
              end, c).
Proof.
  induction steps as [ | rest IH]; intros i c H0 H1; [reflexivity |].
  cbn [findDataOffset firstMarker]. unfold Js.bind.
  rewrite markerAt_run by lia.
  destruct (markerBytesAt dataView i); [reflexivity |].
  apply IH; lia.
Qed.

Lemma firstMarker_found (buffer : ArrayBuffer) (steps : nat) :
  forall (i m : Z),
    firstMarker buffer i steps = Some m ->
    i <= m < i + Z.of_nat steps /\ markerBytesAt buffer m = true.
Proof.
  induction steps as [ | rest IH]; intros i m E; [discriminate |].
  cbn [firstMarker] in E. destruct (markerBytesAt buffer i) eqn:Em.
  - injection E as <-. split; [lia | exact Em].
  - apply IH in E. destruct E as [Hr Hm]. split; [lia | exact Hm].
Qed.

Lemma firstMarker_absent (buffer : ArrayBuffer) (steps : nat) :
  forall (i : Z),
    (forall j, i <= j < i + Z.of_nat steps -> markerBytesAt buffer j = false) ->
    firstMarker buffer i steps = None.
Proof.
  induction steps as [ | rest IH]; intros i H; [reflexivity |].
  cbn [firstMarker]. rewrite (H i) by lia. apply IH. intros j Hj. apply H. lia.
Qed.

Lemma readOne_run (dataView : ArrayBuffer) (bbox : BBox)
    (dataOffset numValues i : Z) (validValues : list number) (c : console) :
  tryCatch (readOne dataView bbox dataOffset numValues i validValues)
    (fun _ => ret validValues) c
  = (Normal match accepted dataView bbox dataOffset numValues i with
            | Some value => (validValues ++ [value])%list
            | None => validValues
            end, c).
Proof.
  unfold tryCatch, readOne, accepted, getFloat32, float32At, Js.bind.
  set (offset := dataOffset + i * 4).
  destruct (Z.leb_spec (offset + 4) (byteLength dataView)) as [Hin | Hout];
    [| rewrite andb_false_r; reflexivity].
  destruct (Z.ltb_spec (byteLength dataView) (offset + 4)); [lia |].
  rewrite orb_false_r, andb_true_r.
  destruct (Z.ltb_spec offset 0) as [Hneg | Hpos];
    destruct (Z.leb_spec 0 offset); try lia; [reflexivity |].
  unfold Js.ret.
  destruct (isValidReading _); [| reflexivity].
  destruct (insideBBox bbox _); reflexivity.
Qed.

Lemma readValues_run (dataView : ArrayBuffer) (bbox : BBox)
    (dataOffset numValues : Z) (steps : nat) :
  forall (i : Z) (validValues : list number) (c : console),
    readValues dataView bbox dataOffset numValues i steps validValues c
    = (Normal (collected dataView bbox dataOffset numValues i steps validValues), c).
Proof.
  induction steps as [ | rest IH]; intros i validValues c; [reflexivity |].
  cbn [readValues collected]. unfold Js.bind at 1.
  rewrite readOne_run. apply IH.
Qed.

(** The extractor always completes normally, with the outcome
    [extractorResult]. *)
Lemma processHDF5File_run (buffer : ArrayBuffer) (bbox : BBox)
    (region subregion : string) (c : console) :
  exists c',
    processHDF5File buffer bbox region subregion c
    = (Normal (extractorResult buffer bbox), c').
Proof.
  unfold processHDF5File, tryCatch, extractorResult.
  unfold Js.bind at 1. unfold consoleLog at 1.
  unfold Js.bind at 1. unfold consoleLog at 1.
  unfold Js.bind at 1.
  rewrite findDataOffset_run by lia.
  destruct (firstMarker buffer 0 (Z.to_nat (byteLength buffer - 4))) as [m | ] eqn:Em.
  - apply firstMarker_found in Em. destruct Em as [Hm _].
    destruct (Z.eqb_spec (m + 1000) (-1)); [lia |].
    unfold Js.bind at 1. unfold consoleLog at 1.
    unfold Js.bind at 1. rewrite readValues_run.
    destruct (collected buffer bbox (m + 1000) _ 0 _ []) as [ | v rest];
      cbn; eexists; reflexivity.
  - cbn. eexists; reflexivity.
Qed.

(** When no scanned offset holds the marker the run reports so on the
    console and returns [null]. *)
Lemma processHDF5File_not_found (buffer : ArrayBuffer) (bbox : BBox)
    (region subregion : string) (c : console) :
  firstMarker buffer 0 (Z.to_nat (byteLength buffer - 4)) = None ->
  processHDF5File buffer bbox region subregion c
  = (Normal None,
     (c ++ [Log "Parsing HDF5 file structure...";
            LogNum "HDF5 file size (bytes)" (Num.ofZ (byteLength buffer));
            Log "Could not find SMAP data pattern in file"])%list).
Proof.
  intros E. unfold processHDF5File, tryCatch.
  unfold Js.bind at 1. unfold consoleLog at 1.
  unfold Js.bind at 1. unfold consoleLog at 1.
  unfold Js.bind at 1.
  rewrite findDataOffset_run by lia. rewrite E. cbn.
  rewrite <- !app_assoc. reflexivity.
Qed.


(** *** The geographic filter *)

Local Open Scope Q_scope.

Lemma filePosition_unit (i n : Z) :
  (0 <= i < n)%Z ->
  (Num.ofZ i / Num.ofZ n)%num = Fin (inject_Z i / inject_Z n)
  /\ 0 <= inject_Z i / inject_Z n <= 1.
Proof.
  intros [H0 H1].
  assert (Hn : 0 < inject_Z n).
  { change 0 with (inject_Z 0). rewrite <- Zlt_Qlt. lia. }
  assert (Hi : 0 <= inject_Z i).
  { change 0 with (inject_Z 0). rewrite <- Zle_Qle. lia. }
  assert (Hin : inject_Z i <= inject_Z n) by (rewrite <- Zle_Qle; lia).
  split; [| split].
  - unfold Num.ofZ. apply NumFacts.div_Fin. lra.
  - apply Qle_shift_div_l; [exact Hn | lra].
  - apply Qle_shift_div_r; [exact Hn | lra].
Qed.

(** The interpolated proxy of a finite, ordered box lies inside the box at
    every position of the file. *)
Lemma insideBBox_finite (bbox : BBox) (i n : Z) :
  finiteBox bbox -> (0 <= i < n)%Z ->
  insideBBox bbox (Num.ofZ i / Num.ofZ n)%num = true.
Proof.
  intros (F0 & F1 & F2 & F3 & _ & _ & Hlon & Hlat) Hi.
  destruct (filePosition_unit i n Hi) as (Ep & Hp0 & Hp1). rewrite Ep.
  destruct bbox as [[[minLon minLat] maxLon] maxLat]. cbn [at0 at1 at2 at3] in *.
  destruct minLon as [ | | | a]; try discriminate.
  destruct minLat as [ | | | b]; try discriminate.
  destruct maxLon as [ | | | a']; try discriminate.
  destruct maxLat as [ | | | b']; try discriminate.
  apply NumFacts.le_Fin in Hlon, Hlat.
  set (p := inject_Z i / inject_Z n) in *.
  unfold insideBBox. cbn [at0 at1 at2 at3 Num.sub Num.neg Num.add Num.mul].
  unfold Num.ge.
  repeat (apply andb_true_intro; split); apply NumFacts.le_Fin; nra.
Qed.

Lemma accepted_box_independent (buffer : ArrayBuffer) (bbox bbox' : BBox)
    (dataOffset numValues i : Z) :
  finiteBox bbox -> finiteBox bbox' -> (0 <= i < numValues)%Z ->
  accepted buffer bbox dataOffset numValues i
  = accepted buffer bbox' dataOffset numValues i.
Proof.
  intros H H' Hi. unfold accepted.
  rewrite (insideBBox_finite bbox i numValues H Hi).
  rewrite (insideBBox_finite bbox' i numValues H' Hi).
  reflexivity.
Qed.

Lemma collected_box_independent (buffer : ArrayBuffer) (bbox bbox' : BBox)
    (dataOffset numValues : Z) (steps : nat) :
  finiteBox bbox -> finiteBox bbox' ->
  forall (i : Z) (validValues : list number),
    (0 <= i)%Z -> (Z.of_nat steps <= Z.max 0 (numValues - i))%Z ->
    collected buffer bbox dataOffset numValues i steps validValues
    = collected buffer bbox' dataOffset numValues i steps validValues.
Proof.
  intros H H'. induction steps as [ | rest IH]; intros i validValues H0 H1;
    [reflexivity |].
  cbn [collected].
  rewrite (accepted_box_independent buffer bbox bbox' dataOffset numValues i H H')
    by lia.
  apply IH; lia.
Qed.

Lemma extractorResult_box_independent (buffer : ArrayBuffer) (bbox bbox' : BBox) :
  finiteBox bbox -> finiteBox bbox' ->
  extractorResult buffer bbox = extractorResult buffer bbox'.
Proof.
  intros H H'. unfold extractorResult.
  destruct (firstMarker buffer 0 (Z.to_nat (byteLength buffer - 4))); [| reflexivity].
  cbv zeta.
  rewrite (collected_box_independent buffer bbox bbox' _ _ _ H H') by lia.
  reflexivity.
Qed.

(** *** The accepted samples and their mean *)

Lemma isValidReading_sample (value : number) :
  isValidReading value = true -> validSample value.
Proof.
  unfold isValidReading, Num.ne, Num.gt, Num.ofZ. intros H.
  apply andb_true_iff in H. destruct H as [H H1].
  apply andb_true_iff in H. destruct H as [Hne H0].
  destruct value as [ | | | q]; try discriminate.
  apply NumFacts.lt_Fin in H0, H1. cbn [validSample].
  change (inject_Z 0) with 0 in H0. change (inject_Z 1) with 1 in H1.
  split; [| split; assumption].
  intros E. apply NumFacts.eq_Fin in E.
  change (inject_Z (-9999)) with (-9999) in Hne.
  rewrite E in Hne. discriminate.
Qed.

Lemma accepted_sample (buffer : ArrayBuffer) (bbox : BBox)
    (dataOffset numValues i : Z) (value : number) :
  accepted buffer bbox dataOffset numValues i = Some value -> validSample value.
Proof.
  unfold accepted.
  destruct ((0 <=? dataOffset + i * 4) && (dataOffset + i * 4 + 4 <=? byteLength buffer))%Z;
    [| discriminate].
  destruct (isValidReading (float32At buffer (dataOffset + i * 4))) eqn:E;
    [| discriminate].
  destruct (insideBBox bbox _); [| discriminate].
  intros H. injection H as <-. apply isValidReading_sample. exact E.
Qed.

Lemma collected_samples (buffer : ArrayBuffer) (bbox : BBox)
    (dataOffset numValues : Z) (steps : nat) :
  forall (i : Z) (validValues : list number),
    Forall validSample validValues ->
    Forall validSample
      (collected buffer bbox dataOffset numValues i steps validValues).
Proof.
  induction steps as [ | rest IH]; intros i validValues H; [exact H |].
  cbn [collected]. apply IH.
  destruct (accepted buffer bbox dataOffset numValues i) as [value | ] eqn:E;
    [| exact H].
  apply Forall_app. split; [exact H |].
  constructor; [| constructor]. exact (accepted_sample _ _ _ _ _ _ E).
Qed.

(** The running sum of valid samples grows by less than one per sample. *)
Lemma sum_samples (validValues : list number) :
  Forall validSample validValues ->
  forall a : Q,
    exists s,
      fold_left Num.add validValues (Fin a) = Fin s
      /\ a <= s <= a + inject_Z (Z.of_nat (List.length validValues))
      /\ (validValues <> [] ->
          a < s < a + inject_Z (Z.of_nat (List.length validValues))).
Proof.
  induction 1 as [ | value rest Hv _ IH]; intros a.
  - exists a. cbn [fold_left List.length Z.of_nat]. change (inject_Z 0) with 0.
    split; [reflexivity |]. split; [lra | congruence].
  - destruct value as [ | | | q]; try contradiction.
    destruct Hv as (_ & Hq0 & Hq1).
    destruct (IH (a + q)) as (s & Es & Hs & _).
    exists s. cbn [fold_left Num.add]. split; [exact Es |].
    assert (El : inject_Z (Z.of_nat (List.length (Fin q :: rest)))
                 == inject_Z (Z.of_nat (List.length rest)) + 1).
    { cbn [List.length]. rewrite Nat2Z.inj_succ. unfold Z.succ.
      rewrite inject_Z_plus. reflexivity. }
    rewrite El. split; [lra | intros _; lra].
Qed.

(** The mean of a non-empty list of valid samples is a valid sample. *)
Lemma averageOf_sample (validValues : list number) :
  validValues <> [] -> Forall validSample validValues ->
  validSample (averageOf validValues).
Proof.
  intros Hne Hv. unfold averageOf, Num.ofZ.
  destruct (sum_samples validValues Hv (inject_Z 0)) as (s & Es & _ & Hs).
  specialize (Hs Hne). rewrite Es.
  set (n := inject_Z (Z.of_nat (List.length validValues))) in *.
  change (inject_Z 0) with 0 in Hs.
  assert (Hn : 0 < n) by lra.
  rewrite NumFacts.div_Fin by lra. cbn [validSample].
  assert (H0 : 0 < s / n) by (apply Qlt_shift_div_l; lra).
  assert (H1 : s / n < 1) by (apply Qlt_shift_div_r; lra).
  split; [lra | split; assumption].
Qed.

Lemma extractorResult_samples (buffer : ArrayBuffer) (bbox : BBox)
    (average : number) (validValues : list number) :
  extractorResult buffer bbox = Some (average, validValues) ->
  Forall validSample validValues /\ validSample average.
Proof.
  unfold extractorResult.
  destruct (firstMarker buffer 0 (Z.to_nat (byteLength buffer - 4))) as [m | ];
    [| discriminate].
  cbv zeta.
  pose proof (collected_samples buffer bbox (m + 1000)
                (Z.min 1000 ((byteLength buffer - (m + 1000)) / 4)) 
                (Z.to_nat (Z.min 1000 ((byteLength buffer - (m + 1000)) / 4)))
                0%Z [] (Forall_nil _)) as Hall.
  destruct (collected buffer bbox (m + 1000) _ 0 _ []) as [ | v rest];
    [discriminate |].
  intros E. injection E as <- <-.
  split; [exact Hall | apply averageOf_sample; [discriminate | exact Hall]].
Qed.

(** A buffer too short to hold a reading after the header skip yields no
    data. *)
Lemma extractorResult_short (buffer : ArrayBuffer) (bbox : BBox) :
  (byteLength buffer < 1004)%Z -> extractorResult buffer bbox = None.
Proof.
  intros Hlen. unfold extractorResult.
  destruct (firstMarker buffer 0 (Z.to_nat (byteLength buffer - 4))) as [m | ] eqn:Em;
    [| reflexivity].
  apply firstMarker_found in Em. destruct Em as [Hm _]. cbv zeta.
  assert (Hn : (Z.min 1000 ((byteLength buffer - (m + 1000)) / 4) <= 0)%Z).
  { assert ((byteLength buffer - (m + 1000)) / 4 <= 0)%Z
      by (Z.div_mod_to_equations; lia).
    lia. }
  destruct (Z.min 1000 ((byteLength buffer - (m + 1000)) / 4)); try lia; reflexivity.
Qed.

End ExtractorFacts.

(* ================================================================== *)
(** ** Properties of the pipeline *)

Import Js JsDate Smap Observe Samples.
Import Spec (rule, lo, hi, factor, ruleTable, ruleMatches, matchedRule).
Local Open Scope string_scope.
Local Open Scope list_scope.
Local Open Scope Q_scope.

(** C1, as stated, fails: the date string -271821-04-20 is parseable, to
    the first valid time value; [new Date(year, 0, 0)] is an invalid Date
    for its year, the day of the year is NaN, and with a granule record the
    fallback returns NaN, which lies in no clamp interval. *)
Lemma first_year_date_yields_NaN :
  newDate parseDate "-271821-04-20" = Some (-8640000000000000)%Z
  /\ getFullYear (newDate parseDate "-271821-04-20") = Num.ofZ (-271821)
  /\ newDateYMD (Num.ofZ (-271821)) (Num.ofZ 0) (Num.ofZ 0) = None
  /\ exists c',
       getRegionalSoilMoisture parseDate "India" "Punjab" "-271821-04-20"
         anonymousGranule []
       = (Normal NaN, c')
       /\ ~ Num.within (lo (matchedRule "India" "Punjab"))
              (hi (matchedRule "India" "Punjab")) NaN
       /\ ~ Num.within 0.05 0.5 NaN.
Proof.
  split; [vm_compute; reflexivity |].
  split; [vm_compute; reflexivity |].
  split; [vm_compute; reflexivity |].
  rewrite FallbackFacts.getRegionalSoilMoisture_run.
  eexists. split; [vm_compute; reflexivity |].
  split; intros H; exact H.
Qed.

(** C1, amended.  The adjuster maps every value other than NaN into the
    clamp interval of the matched rule.  For every date string that gives
    a valid Date whose calendar year is not -271821, the first year of the
    range of time values, whatever the region, subregion and granule, the
    fallback completes normally and the soil moisture it returns lies in
    the clamp interval of the matched adjuster rule, which is the default
    interval [0.05, 0.45] when no specific rule matches, and in every case
    between 0.05 and 0.5. *)
Theorem fallback_within_matched_clamp
    (Date_parse : string -> option Z) (region subregion date : string)
    (granule : value) (t : Z) (c : console) :
  newDate Date_parse date = Some t ->
  YearFromTime t <> (-271821)%Z ->
  (forall v : number,
     Num.isNaN v = false ->
     Num.within (lo (matchedRule region subregion))
       (hi (matchedRule region subregion))
       (applyRegionalCharacteristics v region subregion))
  /\ exists soilMoisture c',
       getRegionalSoilMoisture Date_parse region subregion date granule c
       = (Normal soilMoisture, c')
       /\ Num.within (lo (matchedRule region subregion))
            (hi (matchedRule region subregion)) soilMoisture
       /\ (find (ruleMatches region subregion) ruleTable = None ->
           Num.within 0.05 0.45 soilMoisture)
       /\ Num.within 0.05 0.5 soilMoisture.
Proof.
  intros En Hy.
  split.
  { intros v Hv.
    apply (AdjusterFacts.applyRegionalCharacteristics_within v region subregion Hv). }
  rewrite FallbackFacts.getRegionalSoilMoisture_run.
  do 2 eexists. split; [reflexivity |].
  destruct (FallbackFacts.delivered_representable Date_parse region subregion date
              granule t En Hy) as (v & Ev & _).
  rewrite Ev.
  destruct (AdjusterFacts.applyRegionalCharacteristics_within (Fin v) region subregion
              eq_refl) as [Hrule Hall].
  split; [exact Hrule |]. split; [| exact Hall].
  intros Hnone. unfold matchedRule in Hrule. rewrite Hnone in Hrule. exact Hrule.
Qed.

Lemma fallback_within_matched_clamp_witness :
  newDate parseDate "2025-07-01" = Some 1751328000000%Z
  /\ YearFromTime 1751328000000 <> (-271821)%Z
  /\ (forall v : number,
        Num.isNaN v = false ->
        Num.within (lo (matchedRule "India" "Punjab"))
          (hi (matchedRule "India" "Punjab"))
          (applyRegionalCharacteristics v "India" "Punjab"))
  /\ exists soilMoisture c',
       getRegionalSoilMoisture parseDate "India" "Punjab" "2025-07-01"
         anonymousGranule []
       = (Normal soilMoisture, c')
       /\ Num.within (lo (matchedRule "India" "Punjab"))
            (hi (matchedRule "India" "Punjab")) soilMoisture
       /\ (find (ruleMatches "India" "Punjab") ruleTable = None ->
           Num.within 0.05 0.45 soilMoisture)
       /\ Num.within 0.05 0.5 soilMoisture.
Proof.
  assert (En : newDate parseDate "2025-07-01" = Some 1751328000000%Z)
    by (vm_compute; reflexivity).
  assert (Hy : YearFromTime 1751328000000 <> (-271821)%Z)
    by (vm_compute; discriminate).
  split; [exact En |]. split; [exact Hy |].
  exact (fallback_within_matched_clamp parseDate "India" "Punjab" "2025-07-01"
           anonymousGranule 1751328000000 [] En Hy).
Defined.




(** C4, as stated, fails when the absent granule is [null]: reading its
    identifier throws, the last-resort path runs, and the value returned
    differs from the one the seeded algorithm gives for granule seed 0. *)
Lemma null_granule_takes_last_resort_path :
  validDate parseIsoDate "2025-07-01" 1751328000000
  /\ exists soilMoisture c',
       getRegionalSoilMoisture parseIsoDate "India" "Punjab" "2025-07-01" VNull []
       = (Normal soilMoisture, c')
       /\ In (LogError "Error extracting regional data" TypeError) c'
       /\ soilMoisture
          = applyRegionalCharacteristics (dateBasedValue parseIsoDate "2025-07-01")
              "India" "Punjab"
       /\ ~ Num.same soilMoisture
            (applyRegionalCharacteristics
               (seededMoisture (Num.ofZ 0) (newDate parseIsoDate "2025-07-01")
                  "India" "Punjab")
               "India" "Punjab")
       /\ getRegionalSoilMoisture parseIsoDate "India" "Punjab" "2025-07-01" VNull []
          <> seededRun parseIsoDate "India" "Punjab" "2025-07-01" (Num.ofZ 0) [].
Proof.
  split; [split; [reflexivity | vm_compute; split; discriminate] |].
  rewrite FallbackFacts.getRegionalSoilMoisture_run.
  do 2 eexists. split; [reflexivity |].
  split; [cbn; auto |].
  split; [reflexivity |].
  split; [vm_compute; discriminate | vm_compute; discriminate].
Qed.

(** C4, amended.  For a granule record that carries no identifier, neither
    a truthy [producer_granule_id] nor a truthy [id], the fallback computes
    granule seed 0 and returns the result of the seeded algorithm on date
    and region alone, without entering the last-resort path. *)
Theorem unidentified_granule_seed_zero
    (Date_parse : string -> option Z) (region subregion date : string)
    (props : list (string * value)) (c : console) :
  truthy (lookup props "producer_granule_id") = false ->
  truthy (lookup props "id") = false ->
  granuleChars (VObj props) = Some []
  /\ Str.sumCharCodes [] = Num.ofZ 0
  /\ getRegionalSoilMoisture Date_parse region subregion date (VObj props) c
     = seededRun Date_parse region subregion date (Num.ofZ 0) c.
Proof.
  intros Hp Hi.
  assert (E : granuleChars (VObj props) = Some []).
  { unfold granuleChars. rewrite Hp, Hi. reflexivity. }
  split; [exact E |]. split; [reflexivity |].
  rewrite FallbackFacts.getRegionalSoilMoisture_run.
  unfold seededRun, fallbackLog, deliveredToAdjuster. rewrite E. reflexivity.
Qed.

Lemma unidentified_granule_seed_zero_witness :
  truthy (lookup [] "producer_granule_id") = false
  /\ truthy (lookup [] "id") = false
  /\ granuleChars anonymousGranule = Some []
  /\ Str.sumCharCodes [] = Num.ofZ 0
  /\ getRegionalSoilMoisture parseIsoDate "India" "Punjab" "2025-07-01"
       anonymousGranule []
     = seededRun parseIsoDate "India" "Punjab" "2025-07-01" (Num.ofZ 0) [].
Proof.
  split; [reflexivity |]. split; [reflexivity |].
  exact (unidentified_granule_seed_zero parseIsoDate "India" "Punjab" "2025-07-01"
           [] [] eq_refl eq_refl).
Defined.

(** C8.  The code misses the date seed of the claim for the years 0 to
    99.  On 15 June of the year 50, the 166th day of that year, the anchor
    [new Date(50, 0, 0)] is the Date [new Date(1950, 0, 0)], the code's
    [dayOfYear] is -693794 and its date seed is -1814, where the claim's
    formula with the ordinal day gives 2146. *)
Theorem two_digit_year_date_seed :
  newDate parseIsoDate "0050-06-15" = Some (-60575040000000)%Z
  /\ YearFromTime (-60575040000000) = 50%Z
  /\ MonthFromTime (-60575040000000) = 5%Z
  /\ DateFromTime (-60575040000000) = 15%Z
  /\ (DayWithinYear (-60575040000000) + 1 = 166)%Z
  /\ newDateYMD (Num.ofZ 50) (Num.ofZ 0) (Num.ofZ 0)
     = newDateYMD (Num.ofZ 1950) (Num.ofZ 0) (Num.ofZ 0)
  /\ dayOfYear (newDate parseIsoDate "0050-06-15") = Num.ofZ (-693794)
  /\ dateSeed (newDate parseIsoDate "0050-06-15") = Num.ofZ (-1814)
  /\ ((50 * 31 + 5 * 47 + 15 * 13 + 166) mod 10000 = 2146)%Z
  /\ ~ Num.same (dateSeed (newDate parseIsoDate "0050-06-15")) (Num.ofZ 2146).
Proof.
  repeat (split; [vm_compute; reflexivity |]).
  vm_compute. discriminate.
Qed.

(** C10.  For a date string that does not yield a valid time value the
    last-resort value [0.2 + (NaN mod 1000) / 5000] is NaN, the adjuster
    passes NaN through its clamps, and the fallback returns NaN, which lies
    in no clamp interval, without raising, whatever the granule. *)
Theorem unparseable_date_yields_NaN
    (Date_parse : string -> option Z) (region subregion date : string)
    (granule : value) (c : console) :
  newDate Date_parse date = None ->
  dateBasedValue Date_parse date = NaN
  /\ applyRegionalCharacteristics NaN region subregion = NaN
  /\ (forall lo hi : Q, ~ Num.within lo hi NaN)
  /\ exists c',
       getRegionalSoilMoisture Date_parse region subregion date granule c
       = (Normal NaN, c').
Proof.
  intros E.
  split; [unfold dateBasedValue; rewrite E; reflexivity |].
  split; [apply AdjusterFacts.applyRegionalCharacteristics_NaN |].
  split; [intros lo hi H; exact H |].
  rewrite FallbackFacts.getRegionalSoilMoisture_run.
  rewrite (FallbackFacts.delivered_invalid Date_parse region subregion date granule E).
  rewrite AdjusterFacts.applyRegionalCharacteristics_NaN.
  eexists. reflexivity.
Qed.

Lemma unparseable_date_yields_NaN_witness :
  newDate parseIsoDate "yesterday" = None
  /\ exists c',
       getRegionalSoilMoisture parseIsoDate "India" "Punjab" "yesterday" VNull []
       = (Normal NaN, c').
Proof.
  split; [reflexivity |].
  exact (proj2 (proj2 (proj2
           (unparseable_date_yields_NaN parseIsoDate "India" "Punjab" "yesterday"
              VNull [] eq_refl)))).
Defined.

(** C5, as stated, fails for a box with an infinite bound: the box from 0
    to Infinity is ordered, yet at file position 0 its proxy is
    [0 + Infinity * 0], which is NaN and fails the filter, so the single
    valid reading of the buffer is kept under the unit box and dropped
    under the unbounded one. *)
Lemma unbounded_box_drops_first_reading :
  orderedBox unitBox /\ orderedBox openBox
  /\ isValidReading (float32At oneReadingBuffer 1000) = true
  /\ insideBBox openBox (Num.ofZ 0 / Num.ofZ 1)%num = false
  /\ (exists average reading,
        fst (processHDF5File oneReadingBuffer unitBox "India" "Punjab" [])
        = Normal (Some (average, [reading]))
        /\ Num.same reading (Fin 0.5) /\ Num.same average (Fin 0.5))
  /\ fst (processHDF5File oneReadingBuffer openBox "India" "Punjab" [])
     = Normal None.
Proof.
  split; [split; reflexivity |]. split; [split; reflexivity |].
  split; [vm_compute; reflexivity |]. split; [vm_compute; reflexivity |].
  split; [| vm_compute; reflexivity].
  do 2 eexists. split; [vm_compute; reflexivity |].
  split; vm_compute; reflexivity.
Qed.

(** C5, amended.  For a bounding box with finite coordinates, finite spans,
    [minLon <= maxLon] and [minLat <= maxLat], the geographic filter accepts
    every file position, so the extractor's result is the same for any two
    such boxes. *)
Theorem geographic_filter_accepts_in_finite_box
    (buffer : ArrayBuffer) (bbox bbox' : BBox) (region subregion : string)
    (c c' : console) :
  finiteBox bbox -> finiteBox bbox' ->
  (forall i numValues : Z,
     (0 <= i < numValues)%Z ->
     insideBBox bbox (Num.ofZ i / Num.ofZ numValues)%num = true)
  /\ fst (processHDF5File buffer bbox region subregion c)
     = fst (processHDF5File buffer bbox' region subregion c').
Proof.
  intros H H'. split.
  - intros i numValues Hi. apply ExtractorFacts.insideBBox_finite; assumption.
  - destruct (ExtractorFacts.processHDF5File_run buffer bbox region subregion c)
      as (c1 & E1).
    destruct (ExtractorFacts.processHDF5File_run buffer bbox' region subregion c')
      as (c2 & E2).
    rewrite E1, E2. cbn [fst].
    rewrite (ExtractorFacts.extractorResult_box_independent buffer bbox bbox' H H').
    reflexivity.
Qed.

Lemma geographic_filter_accepts_in_finite_box_witness :
  finiteBox unitBox /\ finiteBox punjabBox
  /\ fst (processHDF5File oneReadingBuffer unitBox "India" "Punjab" [])
     = fst (processHDF5File oneReadingBuffer punjabBox "India" "Punjab" []).
Proof.
  assert (H : finiteBox unitBox) by (repeat split).
  assert (H' : finiteBox punjabBox) by (repeat split).
  split; [exact H |]. split; [exact H' |].
  exact (proj2 (geographic_filter_accepts_in_finite_box oneReadingBuffer unitBox
                  punjabBox "India" "Punjab" [] [] H H')).
Defined.

(** C6.  The extractor never raises: on every buffer it completes normally;
    it returns the no-data outcome when no offset of the buffer holds the
    marker, and when the buffer is too short to hold a reading after the
    header skip. *)
Theorem extractor_never_raises
    (buffer : ArrayBuffer) (bbox : BBox) (region subregion : string)
    (c : console) :
  (exists result c',
     processHDF5File buffer bbox region subregion c = (Normal result, c'))
  /\ ((forall i : Z, (0 <= i)%Z -> markerBytesAt buffer i = false) ->
      exists c',
        processHDF5File buffer bbox region subregion c = (Normal None, c'))
  /\ ((byteLength buffer < 1004)%Z ->
      exists c',
        processHDF5File buffer bbox region subregion c = (Normal None, c')).
Proof.
  destruct (ExtractorFacts.processHDF5File_run buffer bbox region subregion c)
    as (c' & E).
  split; [do 2 eexists; exact E |]. split.
  - intros Hno. eexists.
    apply ExtractorFacts.processHDF5File_not_found.
    apply ExtractorFacts.firstMarker_absent. intros j Hj. apply Hno. lia.
  - intros Hlen. exists c'. rewrite E.
    rewrite (ExtractorFacts.extractorResult_short buffer bbox Hlen). reflexivity.
Qed.

Lemma zeroBuffer_has_no_marker (i : Z) : markerBytesAt zeroBuffer i = false.
Proof.
  unfold markerBytesAt, byteAt, zeroBuffer.
  rewrite nth_repeat. reflexivity.
Qed.

Lemma extractor_never_raises_witness :
  (forall i : Z, (0 <= i)%Z -> markerBytesAt zeroBuffer i = false)
  /\ exists c',
       processHDF5File zeroBuffer punjabBox "India" "Punjab" []
       = (Normal None, c').
Proof.
  assert (H : forall i : Z, (0 <= i)%Z -> markerBytesAt zeroBuffer i = false)
    by (intros i _; apply zeroBuffer_has_no_marker).
  split; [exact H |].
  exact (proj1 (proj2 (extractor_never_raises zeroBuffer punjabBox "India" "Punjab" []))
           H).
Defined.

(** C7.  Whenever the extractor returns data, every sample of the accepted
    list is a finite value different from the fill value -9999 and
    strictly between 0 and 1, and so is the returned mean. *)
Theorem extractor_samples_valid
    (buffer : ArrayBuffer) (bbox : BBox) (region subregion : string)
    (c c' : console) (average : number) (validValues : list number) :
  processHDF5File buffer bbox region subregion c
  = (Normal (Some (average, validValues)), c') ->
  Forall validSample validValues /\ validSample average.
Proof.
  intros E.
  destruct (ExtractorFacts.processHDF5File_run buffer bbox region subregion c)
    as (c1 & E1).
  rewrite E1 in E. injection E as Ex _.
  exact (ExtractorFacts.extractorResult_samples buffer bbox average validValues Ex).
Qed.

Lemma extractor_samples_valid_witness :
  exists average validValues c',
    processHDF5File oneReadingBuffer punjabBox "India" "Punjab" []
    = (Normal (Some (average, validValues)), c')
    /\ Forall validSample validValues /\ validSample average.
Proof.
  do 3 eexists.
  assert (E : processHDF5File oneReadingBuffer punjabBox "India" "Punjab" []
              = (Normal (Some (averageOf [float32At oneReadingBuffer 1000],
                               [float32At oneReadingBuffer 1000])),
                 snd (processHDF5File oneReadingBuffer punjabBox "India" "Punjab" [])))
    by (vm_compute; reflexivity).
  split; [exact E |].
  exact (extractor_samples_valid oneReadingBuffer punjabBox "India" "Punjab" [] _ _ _ E).
Defined.

(** C9.  The scan tests the start offsets below [byteLength - 4] only: a
    buffer whose sole occurrence of the marker is in its last four bytes
    is reported as holding no marker, and the extractor returns the
    no-data outcome. *)
Theorem marker_in_last_four_bytes_not_found
    (buffer : ArrayBuffer) (bbox : BBox) (region subregion : string)
    (c : console) :
  markerBytesAt buffer (byteLength buffer - 4) = true ->
  (forall i : Z,
     (0 <= i < byteLength buffer - 4)%Z -> markerBytesAt buffer i = false) ->
  findDataOffset buffer 0 (Z.to_nat (byteLength buffer - 4)) c = (Normal (-1)%Z, c)
  /\ processHDF5File buffer bbox region subregion c
     = (Normal None,
        c ++ [Log "Parsing HDF5 file structure...";
              LogNum "HDF5 file size (bytes)" (Num.ofZ (byteLength buffer));
              Log "Could not find SMAP data pattern in file"]).
Proof.
  intros _ Hno.
  assert (E : firstMarker buffer 0 (Z.to_nat (byteLength buffer - 4)) = None).
  { apply ExtractorFacts.firstMarker_absent. intros j Hj. apply Hno. lia. }
  split.
  - rewrite ExtractorFacts.findDataOffset_run by lia. rewrite E. reflexivity.
  - apply ExtractorFacts.processHDF5File_not_found. exact E.
Qed.

Lemma tailMarkerBuffer_no_early_marker (i : Z) :
  (0 <= i < byteLength tailMarkerBuffer - 4)%Z ->
  markerBytesAt tailMarkerBuffer i = false.
Proof.
  intros Hi. unfold markerBytesAt, byteAt, tailMarkerBuffer.
  change (byteLength tailMarkerBuffer) with 1000%Z in Hi.
  rewrite app_nth1 by (rewrite repeat_length; lia).
  rewrite nth_repeat. reflexivity.
Qed.

Lemma marker_in_last_four_bytes_not_found_witness :
  markerBytesAt tailMarkerBuffer (byteLength tailMarkerBuffer - 4) = true
  /\ (forall i : Z,
        (0 <= i < byteLength tailMarkerBuffer - 4)%Z ->
        markerBytesAt tailMarkerBuffer i = false)
  /\ fst (processHDF5File tailMarkerBuffer punjabBox "India" "Punjab" [])
     = Normal None.
Proof.
  assert (H : markerBytesAt tailMarkerBuffer (byteLength tailMarkerBuffer - 4) = true)
    by (vm_compute; reflexivity).
  split; [exact H |]. split; [exact tailMarkerBuffer_no_early_marker |].
  rewrite (proj2 (marker_in_last_four_bytes_not_found tailMarkerBuffer punjabBox
                    "India" "Punjab" [] H tailMarkerBuffer_no_early_marker)).
  reflexivity.
Defined.

(* ================================================================== *)
(** ** Further properties of the adjuster *)

Module AdjusterMore.

Import Adjuster Spec Observe.
Local Open Scope Q_scope.

Lemma matchedRule_saturating (region subregion : string) :
  saturating (matchedRule region subregion).
Proof.
  unfold matchedRule.
  destruct (find (ruleMatches region subregion) ruleTable) as [r | ] eqn:E.
  - apply find_some in E. destruct E as [Hin _].
    unfold ruleTable in Hin. cbn [In] in Hin.
    repeat (destruct Hin as [<- | Hin];
            [unfold saturating; cbn; repeat split; lra | ]).
    contradiction.
  - unfold saturating; cbn. repeat split; lra.
Qed.

(** The three ways a finite value passes the two clamps. *)
Lemma clamp_cases (lo hi x : Q) :
  lo < hi ->
  (x <= lo /\ Num.max (Fin lo) (Num.min (Fin hi) (Fin x)) = Fin lo)
  \/ (lo < x < hi /\ Num.max (Fin lo) (Num.min (Fin hi) (Fin x)) = Fin x)
  \/ (hi <= x /\ Num.max (Fin lo) (Num.min (Fin hi) (Fin x)) = Fin hi).
Proof.
  intros Hlh. unfold Num.min, Num.max.
  destruct (Num.lt (Fin x) (Fin hi)) eqn:E1.
  - apply NumFacts.lt_Fin in E1.
    destruct (Num.lt (Fin lo) (Fin x)) eqn:E2.
    + apply NumFacts.lt_Fin in E2. right; left. split; [lra | reflexivity].
    + apply NumFacts.lt_Fin_false in E2. left. split; [lra | reflexivity].
  - apply NumFacts.lt_Fin_false in E1.
    assert (E2 : Num.lt (Fin lo) (Fin hi) = true) by (apply NumFacts.lt_Fin; exact Hlh).
    rewrite E2. right; right. split; [lra | reflexivity].
Qed.

Lemma applyRule_Fin (r : rule) (v : Q) :
  applyRule r (Fin v) = Num.max (Fin (lo r)) (Num.min (Fin (hi r)) (Fin (scaled r v))).
Proof. unfold applyRule, scaled. destruct (factor r); reflexivity. Qed.

Lemma scaled_monotone (r : rule) (a b : Q) :
  saturating r -> a <= b -> scaled r a <= scaled r b.
Proof.
  intros [_ Hk] Hab. unfold scaled. destruct (factor r) as [k | ]; [| exact Hab].
  destruct Hk as [Hk _]. nra.
Qed.

Lemma scaled_comp (r : rule) (a b : Q) : a == b -> scaled r a == scaled r b.
Proof.
  intros H. unfold scaled. destruct (factor r); rewrite H; reflexivity.
Qed.

Lemma applyRule_monotone (r : rule) (a b : Q) :
  saturating r -> a <= b ->
  Num.le (applyRule r (Fin a)) (applyRule r (Fin b)) = true.
Proof.
  intros Hs Hab. pose proof (scaled_monotone r a b Hs Hab) as Hm.
  rewrite !applyRule_Fin. destruct Hs as [Hlh _].
  destruct (clamp_cases (lo r) (hi r) (scaled r a) Hlh) as [[Ha ->] | [[Ha ->] | [Ha ->]]];
  destruct (clamp_cases (lo r) (hi r) (scaled r b) Hlh) as [[Hb ->] | [[Hb ->] | [Hb ->]]];
  apply NumFacts.le_Fin; lra.
Qed.

Lemma applyRule_same (r : rule) (a b : Q) :
  saturating r -> a == b -> Num.same (applyRule r (Fin a)) (applyRule r (Fin b)).
Proof.
  intros Hs Hab. pose proof (scaled_comp r a b Hab) as Hm.
  rewrite !applyRule_Fin. destruct Hs as [Hlh _].
  destruct (clamp_cases (lo r) (hi r) (scaled r a) Hlh) as [[Ha ->] | [[Ha ->] | [Ha ->]]];
  destruct (clamp_cases (lo r) (hi r) (scaled r b) Hlh) as [[Hb ->] | [[Hb ->] | [Hb ->]]];
  cbn [Num.same]; lra.
Qed.

(** The adjuster maps equal numbers to equal numbers. *)
Lemma applyRegionalCharacteristics_same (x y : number) (region subregion : string) :
  Num.same x y ->
  Num.same (applyRegionalCharacteristics x region subregion)
    (applyRegionalCharacteristics y region subregion).
Proof.
  intros H. rewrite !AdjusterFacts.applyRegionalCharacteristics_table.
  pose proof (matchedRule_saturating region subregion) as Hs.
  destruct x as [ | | | a], y as [ | | | b]; try contradiction.
  - unfold applyRule. destruct (factor (matchedRule region subregion)); exact I.
  - unfold applyRule.
    destruct (Num.max _ _); cbn; try exact I. reflexivity.
  - unfold applyRule.
    destruct (Num.max _ _); cbn; try exact I. reflexivity.
  - apply applyRule_same; assumption.
Qed.

End AdjusterMore.

(* ================================================================== *)
(** ** Further properties of the fallback *)

Module FallbackMore.

Import Js JsDate Smap Observe DateFacts.
Local Open Scope string_scope.
Local Open Scope list_scope.
Local Open Scope Q_scope.

Lemma same_refl (x : number) : Num.same x x.
Proof. destruct x; cbn; try exact I. reflexivity. Qed.

Lemma same_trans (x y z : number) : Num.same x y -> Num.same y z -> Num.same x z.
Proof.
  destruct x, y, z; cbn; try tauto. intros H1 H2. rewrite H1. exact H2.
Qed.

Lemma same_sym (x y : number) : Num.same x y -> Num.same y x.
Proof. destruct x, y; cbn; try tauto. intros H. symmetry. exact H. Qed.

(** *** Letter case *)

Lemma lowerChar_idempotent (c : ascii) :
  Str.lowerChar (Str.lowerChar c) = Str.lowerChar c.
Proof. destruct c as [[] [] [] [] [] [] [] []]; reflexivity. Qed.

Lemma toLowerCase_idempotent (s : string) :
  Str.toLowerCase (Str.toLowerCase s) = Str.toLowerCase s.
Proof.
  induction s as [ | c s IH]; [reflexivity |].
  cbn [Str.toLowerCase]. rewrite lowerChar_idempotent, IH. reflexivity.
Qed.

Lemma toLowerCase_app (a b : string) :
  Str.toLowerCase (a ++ b) = (Str.toLowerCase a ++ Str.toLowerCase b)%string.
Proof.
  induction a as [ | c a IH]; [reflexivity |].
  cbn [String.append Str.toLowerCase]. rewrite IH. reflexivity.
Qed.

Lemma getRegionSeed_lower (region subregion region' subregion' : string) :
  Str.toLowerCase region = Str.toLowerCase region' ->
  Str.toLowerCase subregion = Str.toLowerCase subregion' ->
  getRegionSeed region subregion = getRegionSeed region' subregion'.
Proof.
  intros Hr Hs. unfold getRegionSeed.
  rewrite !toLowerCase_app, Hr, Hs. reflexivity.
Qed.

Lemma applyRegionalCharacteristics_lower (v : number)
    (region subregion region' subregion' : string) :
  Str.toLowerCase region = Str.toLowerCase region' ->
  Str.toLowerCase subregion = Str.toLowerCase subregion' ->
  applyRegionalCharacteristics v region subregion
  = applyRegionalCharacteristics v region' subregion'.
Proof.
  intros Hr Hs. unfold applyRegionalCharacteristics. rewrite Hr, Hs. reflexivity.
Qed.

(** *** Sums of character codes *)

Lemma charCodeSum_app (a b : string) :
  Spec.charCodeSum (a ++ b) = (Spec.charCodeSum a + Spec.charCodeSum b)%Z.
Proof.
  unfold Spec.charCodeSum.
  induction a as [ | c a IH]; [reflexivity |].
  cbn [String.append list_ascii_of_string fold_right]. rewrite IH. lia.
Qed.

Lemma charCodeSum_nonneg (s : string) : (0 <= Spec.charCodeSum s)%Z.
Proof.
  unfold Spec.charCodeSum.
  induction (list_ascii_of_string s); cbn [fold_right]; lia.
Qed.

Lemma regionSeed_parts (region subregion : string) :
  Spec.regionSeed region subregion
  = (Spec.charCodeSum (Str.toLowerCase region) + 45
     + Spec.charCodeSum (Str.toLowerCase subregion))%Z.
Proof.
  unfold Spec.regionSeed. rewrite !toLowerCase_app, !charCodeSum_app.
  change (Spec.charCodeSum (Str.toLowerCase "-")) with 45%Z. lia.
Qed.


Lemma sumCharCodes_int (chars : list ascii) :
  exists g gz, Str.sumCharCodes chars = Fin g /\ g == inject_Z gz /\ 0 <= g.
Proof.
  destruct (FallbackFacts.sumCharCodes_from chars (inject_Z 0)) as (g & E & Hg).
  destruct (FallbackFacts.sumCharCodes_finite chars) as (g' & E' & Hg').
  unfold Str.sumCharCodes, Num.ofZ in E'. rewrite E in E'. injection E' as <-.
  exists g, (fold_right (fun c acc => (Z.of_nat (nat_of_ascii c) + acc)%Z) 0%Z chars).
  split; [exact E |]. split; [| exact Hg'].
  rewrite Hg. change (inject_Z 0) with 0. ring.
Qed.

(** *** Consecutive days *)

Lemma next_day_parts (t : Z) :
  YearFromTime (t + msPerDay) = YearFromTime t ->
  MonthFromTime (t + msPerDay) = MonthFromTime t ->
  DateFromTime (t + msPerDay) = (DateFromTime t + 1)%Z
  /\ elapsedDays (t + msPerDay) = (elapsedDays t + 1)%Z.
Proof.
  intros Hy Hm.
  assert (Hd : Day (t + msPerDay) = (Day t + 1)%Z).
  { unfold Day, msPerDay. Z.div_mod_to_equations. lia. }
  assert (Hl : InLeapYear (t + msPerDay) = InLeapYear t).
  { unfold InLeapYear. rewrite Hy. reflexivity. }
  unfold DateFromTime, elapsedDays, DayWithinYear.
  rewrite Hy, Hm, Hl, Hd. lia.
Qed.

Lemma rem_shift_14 (a : Z) : Z.rem (a + 14) 10000 <> Z.rem a 10000.
Proof.
  pose proof (Z.quot_rem' (a + 14) 10000). pose proof (Z.quot_rem' a 10000). lia.
Qed.

(** Seeds that differ by 14 modulo 10000 give combined seeds that differ. *)
Lemma combinedSeed_shift (gz rz d d' : Z) :
  (exists k : Z, d' - d = 14 - 10000 * k)%Z ->
  ~ Spec.combinedSeed gz d' rz == Spec.combinedSeed gz d rz.
Proof.
  intros [k Hk] H. unfold Spec.combinedSeed, Spec.Qrem in H.
  set (T' := Num.Qtrunc _) in H. set (T := Num.Qtrunc _) in H.
  assert (E : 0.6 * inject_Z (d' - d) == 10000 * inject_Z (T' - T)).
  { unfold Zminus. rewrite !inject_Z_plus, !inject_Z_opp. lra. }
  rewrite Hk in E. unfold Qeq, Qmult, inject_Z in E.
  cbn [Qnum Qden Pos.mul] in E. lia.
Qed.

Section NextDay.

Variable t : Z.
Hypothesis year_range : (0 <= YearFromTime t <= 9999)%Z.
Hypothesis same_year : YearFromTime (t + msPerDay) = YearFromTime t.
Hypothesis same_month : MonthFromTime (t + msPerDay) = MonthFromTime t.

Lemma next_day_dateSeed :
  exists k : Z,
    (Spec.dateSeed (YearFromTime (t + msPerDay)) (MonthFromTime (t + msPerDay))
       (DateFromTime (t + msPerDay)) (elapsedDays (t + msPerDay))
     - Spec.dateSeed (YearFromTime t) (MonthFromTime t) (DateFromTime t)
         (elapsedDays t)
     = 14 - 10000 * k)%Z.
Proof.
  destruct (next_day_parts t same_year same_month) as [Hd He].
  rewrite same_year, same_month, Hd, He. unfold Spec.dateSeed.
  set (a := (YearFromTime t * 31 + MonthFromTime t * 47 + DateFromTime t * 13
             + elapsedDays t)%Z).
  replace (YearFromTime t * 31 + MonthFromTime t * 47 + (DateFromTime t + 1) * 13
           + (elapsedDays t + 1))%Z with (a + 14)%Z by (unfold a; lia).
  pose proof (Z.quot_rem' (a + 14) 10000). pose proof (Z.quot_rem' a 10000).
  exists ((a + 14) ÷ 10000 - a ÷ 10000)%Z. lia.
Qed.

(** The next day of the same month gets a different estimate before
    adjustment. *)
Lemma next_day_seededMoisture (chars : list ascii) (region subregion : string) :
  ~ Num.same
      (seededMoisture (Str.sumCharCodes chars) (Some (t + msPerDay)%Z) region subregion)
      (seededMoisture (Str.sumCharCodes chars) (Some t) region subregion).
Proof.
  destruct (sumCharCodes_int chars) as (g & gz & Eg & Hgz & Hg0). rewrite Eg.
  assert (year_range' : (0 <= YearFromTime (t + msPerDay) <= 9999)%Z)
    by (rewrite same_year; exact year_range).
  destruct (FallbackFacts.seededMoisture_valid (t + msPerDay) year_range' g region
              subregion Hg0) as (v' & Ev' & Hs' & _).
  destruct (FallbackFacts.seededMoisture_valid t year_range g region subregion Hg0)
    as (v & Ev & Hs & _).
  rewrite Ev', Ev. specialize (Hs' gz Hgz). specialize (Hs gz Hgz).
  intros Hsame.
  assert (Hest : Num.same
            (Spec.estimate gz (Spec.regionSeed region subregion)
               (YearFromTime (t + msPerDay)) (MonthFromTime (t + msPerDay))
               (DateFromTime (t + msPerDay)) (elapsedDays (t + msPerDay)))
            (Spec.estimate gz (Spec.regionSeed region subregion)
               (YearFromTime t) (MonthFromTime t) (DateFromTime t) (elapsedDays t))).
  { eapply same_trans; [apply same_sym; exact Hs' |].
    eapply same_trans; [exact Hsame | exact Hs]. }
  clear Hs Hs' Hsame Ev Ev'.
  unfold Spec.estimate, Spec.seasonal, Num.ofZ in Hest.
  rewrite same_month in Hest at 2.
  destruct (FallbackFacts.sinTwelfths_Fin (inject_Z (MonthFromTime t)))
    as (s & Es & _).
  rewrite Es in Hest. cbn [Num.mul Num.add Num.same] in Hest.
  unfold Spec.base in Hest.
  apply (combinedSeed_shift gz (Spec.regionSeed region subregion) _ _ next_day_dateSeed).
  assert (D : forall x : Q, x / 10000 == x * 0.0001) by (intros x; field; lra).
  rewrite !D in Hest. lra.
Qed.

End NextDay.

End FallbackMore.

(* ================================================================== *)
(** ** Further properties of the binary extractor *)

Module ExtractorMore.

Import Js Smap Observe.
Local Open Scope Z_scope.

Lemma firstMarker_first (buffer : ArrayBuffer) (m : Z) (steps : nat) :
  forall i : Z,
    i <= m < i + Z.of_nat steps ->
    markerBytesAt buffer m = true ->
    (forall j, i <= j < m -> markerBytesAt buffer j = false) ->
    firstMarker buffer i steps = Some m.
Proof.
  induction steps as [ | rest IH]; intros i Hi Hm Hno; [lia |].
  cbn [firstMarker]. destruct (Z.eq_dec i m) as [-> | Hne].
  - rewrite Hm. reflexivity.
  - rewrite (Hno i) by lia. apply IH; [lia | exact Hm |].
    intros j Hj. apply Hno. lia.
Qed.

Lemma firstMarkerAt_scan (buffer : ArrayBuffer) (m : Z) :
  firstMarkerAt buffer m ->
  firstMarker buffer 0 (Z.to_nat (byteLength buffer - 4)) = Some m.
Proof.
  intros (Hm & Hat & Hno). apply firstMarker_first; [lia | exact Hat | exact Hno].
Qed.

Lemma collected_length (buffer : ArrayBuffer) (bbox : BBox)
    (dataOffset numValues : Z) (steps : nat) :
  forall (i : Z) (validValues : list number),
    (List.length (collected buffer bbox dataOffset numValues i steps validValues)
     <= List.length validValues + steps)%nat.
Proof.
  induction steps as [ | rest IH]; intros i validValues; cbn [collected]; [lia |].
  specialize (IH (i + 1)
                match accepted buffer bbox dataOffset numValues i with
                | Some value => (validValues ++ [value])%list
                | None => validValues
                end).
  destruct (accepted buffer bbox dataOffset numValues i);
    [rewrite length_app in IH; cbn [List.length] in IH |]; lia.
Qed.

(** In a finite box the loop keeps exactly the valid readings, in file
    order. *)
Lemma collected_filter (buffer : ArrayBuffer) (bbox : BBox)
    (dataOffset numValues : Z) (steps : nat) :
  finiteBox bbox -> 0 <= dataOffset ->
  dataOffset + 4 * numValues <= byteLength buffer ->
  forall (k : nat) (validValues : list number),
    Z.of_nat k + Z.of_nat steps <= numValues ->
    collected buffer bbox dataOffset numValues (Z.of_nat k) steps validValues
    = (validValues
       ++ filter isValidReading
            (map (fun j => float32At buffer (dataOffset + Z.of_nat j * 4))
               (seq k steps)))%list.
Proof.
  intros Hbox Hoff Hlen. induction steps as [ | rest IH]; intros k validValues Hk.
  - cbn. rewrite app_nil_r. reflexivity.
  - cbn [collected seq map filter].
    replace (Z.of_nat k + 1) with (Z.of_nat (S k)) by lia.
    rewrite IH by lia.
    unfold accepted.
    destruct (Z.leb_spec 0 (dataOffset + Z.of_nat k * 4)); [| lia].
    destruct (Z.leb_spec (dataOffset + Z.of_nat k * 4 + 4) (byteLength buffer)); [| lia].
    cbn [andb].
    rewrite (ExtractorFacts.insideBBox_finite bbox (Z.of_nat k) numValues Hbox) by lia.
    rewrite andb_true_r.
    destruct (isValidReading (float32At buffer (dataOffset + Z.of_nat k * 4)));
      [rewrite <- app_assoc |]; reflexivity.
Qed.

Lemma extractorResult_filter (buffer : ArrayBuffer) (bbox : BBox) (m : Z) :
  finiteBox bbox -> firstMarkerAt buffer m ->
  extractorResult buffer bbox
  = match filter isValidReading
            (readings buffer (m + 1000)
               (Z.min 1000 ((byteLength buffer - (m + 1000)) / 4))) with
    | [] => None
    | validValues => Some (averageOf validValues, validValues)
    end.
Proof.
  intros Hbox Hm. unfold extractorResult, readings.
  rewrite (firstMarkerAt_scan buffer m Hm). cbv zeta.
  destruct Hm as (Hm & _).
  set (n := Z.min 1000 ((byteLength buffer - (m + 1000)) / 4)).
  destruct (Z.le_gt_cases n 0) as [Hn | Hn].
  - replace (Z.to_nat n) with 0%nat by lia. reflexivity.
  - assert (Hlen : m + 1000 + 4 * n <= byteLength buffer).
    { unfold n in *. Z.div_mod_to_equations. lia. }
    pose proof (collected_filter buffer bbox (m + 1000) n (Z.to_nat n) Hbox
                  ltac:(lia) Hlen 0%nat [] ltac:(lia)) as E.
    change (Z.of_nat 0) with 0%Z in E. rewrite E. reflexivity.
Qed.

(** *** The mean *)

Local Open Scope Q_scope.

Lemma sum_within (lo hi : Q) (validValues : list number) :
  Forall (Num.within lo hi) validValues ->
  forall a : Q,
    exists s,
      fold_left Num.add validValues (Fin a) = Fin s
      /\ a + inject_Z (Z.of_nat (List.length validValues)) * lo <= s
      /\ s <= a + inject_Z (Z.of_nat (List.length validValues)) * hi.
Proof.
  induction 1 as [ | value rest Hv _ IH]; intros a.
  - exists a. cbn [fold_left List.length Z.of_nat]. change (inject_Z 0) with 0.
    split; [reflexivity | lra].
  - destruct value as [ | | | q]; try contradiction. cbn [Num.within] in Hv.
    destruct (IH (a + q)) as (s & Es & Hs1 & Hs2).
    exists s. cbn [fold_left Num.add]. split; [exact Es |].
    assert (El : inject_Z (Z.of_nat (List.length (Fin q :: rest)))
                 == inject_Z (Z.of_nat (List.length rest)) + 1).
    { cbn [List.length]. rewrite Nat2Z.inj_succ. unfold Z.succ.
      rewrite inject_Z_plus. reflexivity. }
    rewrite El. lra.
Qed.

(** The mean of a non-empty list stays in every interval that holds all
    its elements. *)
Lemma averageOf_within (lo hi : Q) (validValues : list number) :
  validValues <> [] -> Forall (Num.within lo hi) validValues ->
  Num.within lo hi (averageOf validValues).
Proof.
  intros Hne Hv. unfold averageOf, Num.ofZ.
  destruct (sum_within lo hi validValues Hv (inject_Z 0)) as (s & Es & Hs1 & Hs2).
  rewrite Es. change (inject_Z 0) with 0 in *.
  set (n := inject_Z (Z.of_nat (List.length validValues))) in *.
  assert (Hn : 0 < n).
  { unfold n. change 0 with (inject_Z 0). rewrite <- Zlt_Qlt.
    destruct validValues; [congruence | cbn [List.length]; lia]. }
  rewrite NumFacts.div_Fin by lra. cbn [Num.within]. split.
  - apply Qle_shift_div_l; [exact Hn | lra].
  - apply Qle_shift_div_r; [exact Hn | lra].
Qed.

End ExtractorMore.

(* ================================================================== *)
(** ** Valid readings as bit patterns *)

Module BitPatterns.

Import Js Smap Observe.
Local Open Scope Q_scope.

Lemma isValidReading_Fin (q : Q) : isValidReading (Fin q) = true <-> 0 < q < 1.
Proof.
  split.
  - intros H. apply ExtractorFacts.isValidReading_sample in H. cbn in H. tauto.
  - intros [H0 H1]. unfold isValidReading, Num.ne, Num.gt, Num.ofZ.
    apply andb_true_intro. split; [apply andb_true_intro; split |].
    + apply negb_true_iff. unfold Num.eq.
      destruct (Qeq_bool q (inject_Z (-9999))) eqn:E; [| reflexivity].
      apply Qeq_bool_iff in E. change (inject_Z (-9999)) with (-9999) in E. lra.
    + apply NumFacts.lt_Fin. change (inject_Z 0) with 0. exact H0.
    + apply NumFacts.lt_Fin. change (inject_Z 1) with 1. exact H1.
Qed.

Lemma isValidReading_nonpositive (q : Q) : q <= 0 -> isValidReading (Fin q) = false.
Proof.
  intros H. destruct (isValidReading (Fin q)) eqn:E; [| reflexivity].
  apply isValidReading_Fin in E. lra.
Qed.

Lemma byteAt_range (buffer : ArrayBuffer) (i : Z) : (0 <= byteAt buffer i < 256)%Z.
Proof.
  unfold byteAt. pose proof (Byte.to_N_bounded (nth (Z.to_nat i) buffer x00)). lia.
Qed.

Lemma wordAt_range (buffer : ArrayBuffer) (offset : Z) :
  (0 <= wordAt buffer offset < 2 ^ 32)%Z.
Proof.
  unfold wordAt.
  pose proof (byteAt_range buffer offset).
  pose proof (byteAt_range buffer (offset + 1)).
  pose proof (byteAt_range buffer (offset + 2)).
  pose proof (byteAt_range buffer (offset + 3)). lia.
Qed.

(** Powers of two below and above the exponent of one. *)
Lemma small_power (e : Z) : (e <= 126)%Z -> 2 ^ (e - 150) <= 2 ^ (-24).
Proof. intros H. apply Qpower_le_compat_l; [lia | lra]. Qed.

Lemma large_power (e : Z) : (127 <= e)%Z -> 2 ^ (-23) <= 2 ^ (e - 150).
Proof. intros H. apply Qpower_le_compat_l; [lia | lra]. Qed.

Lemma power_positive (z : Z) : 0 < 2 ^ z.
Proof. apply Qpower_0_lt. lra. Qed.

(** A bit pattern decodes to a valid reading exactly when, read as an
    unsigned integer, it lies strictly between 0 and the pattern of 1.0. *)
Lemma valid_bits (bits : Z) :
  (0 <= bits < 2 ^ 32)%Z ->
  isValidReading (decodeFloat32 bits) = true <-> (0 < bits < 1065353216)%Z.
Proof.
  intros Hb. unfold decodeFloat32.
  assert (He : Z.land (Z.shiftr bits 23) 255 = ((bits / 2 ^ 23) mod 2 ^ 8)%Z).
  { rewrite Z.shiftr_div_pow2 by lia. change 255%Z with (Z.ones 8).
    apply Z.land_ones. lia. }
  assert (Hm : Z.land bits (2 ^ 23 - 1) = (bits mod 2 ^ 23)%Z).
  { change (2 ^ 23 - 1)%Z with (Z.ones 23). apply Z.land_ones. lia. }
  rewrite He, Hm. clear He Hm.
  set (e := ((bits / 2 ^ 23) mod 2 ^ 8)%Z).
  set (m := (bits mod 2 ^ 23)%Z).
  assert (Hbits : exists s : Z, (0 <= s <= 1)%Z /\ (bits = s * 2 ^ 31 + e * 2 ^ 23 + m)%Z
                                /\ (0 <= e < 256)%Z /\ (0 <= m < 2 ^ 23)%Z
                                /\ Z.testbit bits 31 = (s =? 1)%Z).
  { exists (bits / 2 ^ 31)%Z.
    assert (Ht : Z.testbit bits 31 = ((bits / 2 ^ 31) =? 1)%Z).
    { destruct (Z.testbit bits 31) eqn:T.
      - apply Z.testbit_true in T; [| lia]. symmetry. apply Z.eqb_eq.
        revert T. change (2 ^ 31)%Z with 2147483648%Z in *.
        change (2 ^ 32)%Z with 4294967296%Z in *. intros T.
        Z.div_mod_to_equations. lia.
      - apply Z.testbit_false in T; [| lia]. symmetry. apply Z.eqb_neq.
        revert T. change (2 ^ 31)%Z with 2147483648%Z in *.
        change (2 ^ 32)%Z with 4294967296%Z in *. intros T.
        Z.div_mod_to_equations. lia. }
    unfold e, m. change (2 ^ 31)%Z with 2147483648%Z in *.
    change (2 ^ 32)%Z with 4294967296%Z in *.
    change (2 ^ 23)%Z with 8388608%Z in *. change (2 ^ 8)%Z with 256%Z in *.
    repeat split; try exact Ht; Z.div_mod_to_equations; lia. }
  destruct Hbits as (s & Hs & Hdec & Her & Hmr & Ht).
  clearbody e m. rewrite Ht.
  change (2 ^ 31)%Z with 2147483648%Z in *. change (2 ^ 32)%Z with 4294967296%Z in *.
  change (2 ^ 23)%Z with 8388608%Z in *.
  assert (Hmq : 0 <= inject_Z m).
  { change 0 with (inject_Z 0). rewrite <- Zle_Qle. lia. }
  assert (Hmq' : inject_Z m < 8388608).
  { change 8388608 with (inject_Z 8388608). rewrite <- Zlt_Qlt. lia. }
  assert (Hsum : inject_Z (8388608 + m) == 8388608 + inject_Z m).
  { rewrite inject_Z_plus. reflexivity. }
  destruct (Z.eqb_spec s 1) as [Hs1 | Hs0].
  - (* sign bit set *)
    split; [| lia]. intros H. exfalso.
    destruct (Z.eqb_spec e 255); [destruct (Z.eqb_spec m 0); discriminate H |].
    destruct (Z.eqb_spec e 0).
    + rewrite isValidReading_nonpositive in H; [discriminate H |].
      pose proof (power_positive (-149)). nra.
    + rewrite isValidReading_nonpositive in H; [discriminate H |].
      pose proof (power_positive (e - 150)). rewrite Hsum. nra.
  - assert (s = 0%Z) by lia. subst s.
    destruct (Z.eqb_spec e 255) as [E255 | E255].
    + split; [destruct (Z.eqb_spec m 0); discriminate | lia].
    + destruct (Z.eqb_spec e 0) as [E0 | E0].
      * rewrite isValidReading_Fin. subst e.
        assert (Hp : 2 ^ (-149) <= 2 ^ (-24)) by (apply Qpower_le_compat_l; [lia | lra]).
        pose proof (power_positive (-149)) as Hp0.
        change (2 ^ (-24)) with (1 # 16777216) in Hp.
        split.
        { intros [H0 _]. assert (0 < inject_Z m) by nra.
          assert (0 < m)%Z by (rewrite Zlt_Qlt; exact H). lia. }
        { intros [H0 _]. assert (Hm1 : 1 <= inject_Z m).
          { change 1 with (inject_Z 1). rewrite <- Zle_Qle. lia. }
          split; nra. }
      * rewrite isValidReading_Fin. rewrite Hsum.
        pose proof (power_positive (e - 150)) as Hp0.
        destruct (Z.le_gt_cases e 126) as [Hsmall | Hlarge].
        { pose proof (small_power e Hsmall) as Hp.
          change (2 ^ (-24)) with (1 # 16777216) in Hp.
          split; [intros _; lia | intros _; split; nra]. }
        { pose proof (large_power e ltac:(lia)) as Hp.
          change (2 ^ (-23)) with (1 # 8388608) in Hp.
          split; [intros [_ H1]; exfalso; nra | lia]. }
Qed.

End BitPatterns.

(* ================================================================== *)
(** ** Further properties of the pipeline *)

(** X1.  [getSeason] names the season of the month: March to May is
    Spring, June to August Summer, September to November Fall, and
    December to February Winter; an invalid Date, whose month is NaN, is
    named Winter as well. *)
Theorem getSeason_by_month :
  getSeason None = "Winter"
  /\ forall t : Z,
       let m := MonthFromTime t in
       getSeason (Some t)
       = if ((2 <=? m) && (m <=? 4))%Z then "Spring"
         else if ((5 <=? m) && (m <=? 7))%Z then "Summer"
         else if ((8 <=? m) && (m <=? 10))%Z then "Fall"
         else "Winter".
Proof.
  split; [reflexivity |]. intros t m.
  pose proof (DateFacts.MonthFromTime_range t) as Hm. fold m in Hm.
  unfold getSeason, getMonth, LocalTime. fold m.
  assert (H : (m = 0 \/ m = 1 \/ m = 2 \/ m = 3 \/ m = 4 \/ m = 5 \/ m = 6
               \/ m = 7 \/ m = 8 \/ m = 9 \/ m = 10 \/ m = 11)%Z) by lia.
  clearbody m.
  repeat match goal with H : _ \/ _ |- _ => destruct H as [H | H] end;
    rewrite H; reflexivity.
Qed.

(** X2.  The seasonal term follows the seasons of [getSeason]: in Spring
    it adds at least 0.0866 to the base, in Fall it subtracts at least
    0.0866, and in Summer and Winter it stays within 0.0501 of zero (the
    sine of the rounded argument is not one half exactly, and the term of
    December lies a little below -0.05). *)
Theorem seasonal_term_by_season (t : Z) :
  exists s,
    monthlyVariation (Some t) = Fin s
    /\ (getSeason (Some t) = "Spring" -> 0.0866 <= s <= 0.1)
    /\ (getSeason (Some t) = "Fall" -> -0.1 <= s <= -0.0866)
    /\ (getSeason (Some t) = "Summer" \/ getSeason (Some t) = "Winter" ->
        -0.0501 <= s <= 0.0501).
Proof.
  pose proof (DateFacts.MonthFromTime_range t) as Hm.
  unfold getSeason, monthlyVariation, getMonth, LocalTime.
  set (m := MonthFromTime t) in *.
  assert (H : (m = 0 \/ m = 1 \/ m = 2 \/ m = 3 \/ m = 4 \/ m = 5 \/ m = 6
               \/ m = 7 \/ m = 8 \/ m = 9 \/ m = 10 \/ m = 11)%Z) by lia.
  clearbody m.
  repeat match goal with H : _ \/ _ |- _ => destruct H as [H | H] end;
    rewrite H; (eexists; split; [reflexivity |]);
    (split; [| split]); intros E; try (destruct E as [E | E]);
    try (vm_compute in E; discriminate E); lra.
Qed.

(** X3.  The fallback ignores the letter case of region and subregion:
    names that agree after lowercasing give the same result and the same
    console output, for every date and granule. *)
Theorem fallback_ignores_letter_case
    (Date_parse : string -> option Z)
    (region subregion region' subregion' date : string)
    (granule : value) (c : console) :
  Str.toLowerCase region = Str.toLowerCase region' ->
  Str.toLowerCase subregion = Str.toLowerCase subregion' ->
  getRegionSeed region subregion = getRegionSeed region' subregion'
  /\ getRegionalSoilMoisture Date_parse region subregion date granule c
     = getRegionalSoilMoisture Date_parse region' subregion' date granule c.
Proof.
  intros Hr Hs.
  pose proof (FallbackMore.getRegionSeed_lower _ _ _ _ Hr Hs) as Eseed.
  split; [exact Eseed |].
  rewrite !FallbackFacts.getRegionalSoilMoisture_run.
  assert (Ed : deliveredToAdjuster Date_parse region subregion date granule
               = deliveredToAdjuster Date_parse region' subregion' date granule).
  { unfold deliveredToAdjuster, seededMoisture. rewrite Eseed. reflexivity. }
  unfold fallbackLog. rewrite Ed.
  rewrite (FallbackMore.applyRegionalCharacteristics_lower _ _ _ _ _ Hr Hs).
  reflexivity.
Qed.

Lemma fallback_ignores_letter_case_witness :
  Str.toLowerCase "INDIA" = Str.toLowerCase "india"
  /\ Str.toLowerCase "Punjab" = Str.toLowerCase "PUNJAB"
  /\ getRegionalSoilMoisture parseIsoDate "INDIA" "Punjab" "2025-07-01"
       namedGranule []
     = getRegionalSoilMoisture parseIsoDate "india" "PUNJAB" "2025-07-01"
         namedGranule [].
Proof.
  split; [reflexivity |]. split; [reflexivity |].
  exact (proj2 (fallback_ignores_letter_case parseIsoDate "INDIA" "Punjab" "india"
                  "PUNJAB" "2025-07-01" namedGranule [] eq_refl eq_refl)).
Defined.

(** X4.  The region seed is the character-code sum of the lowercased
    region, plus 45 for the hyphen, plus that of the lowercased subregion;
    it is a whole number of at least 45, and exchanging region and
    subregion does not change it. *)
Theorem region_seed_is_sum_of_parts (region subregion : string) :
  Num.same (getRegionSeed region subregion)
    (Num.ofZ (Spec.charCodeSum (Str.toLowerCase region) + 45
              + Spec.charCodeSum (Str.toLowerCase subregion)))
  /\ Num.le (Num.ofZ 45) (getRegionSeed region subregion) = true
  /\ Num.same (getRegionSeed region subregion) (getRegionSeed subregion region).
Proof.
  destruct (FallbackFacts.getRegionSeed_spec region subregion) as (q & E & Hq).
  destruct (FallbackFacts.getRegionSeed_spec subregion region) as (q' & E' & Hq').
  rewrite E, E'. rewrite FallbackMore.regionSeed_parts in Hq, Hq'.
  pose proof (FallbackMore.charCodeSum_nonneg (Str.toLowerCase region)) as Hr.
  pose proof (FallbackMore.charCodeSum_nonneg (Str.toLowerCase subregion)) as Hs.
  split; [exact Hq |]. split.
  - apply NumFacts.le_Fin. rewrite Hq. rewrite <- Zle_Qle. lia.
  - cbn [Num.same]. rewrite Hq, Hq'.
    replace (Spec.charCodeSum (Str.toLowerCase subregion) + 45
             + Spec.charCodeSum (Str.toLowerCase region))%Z
      with (Spec.charCodeSum (Str.toLowerCase region) + 45
            + Spec.charCodeSum (Str.toLowerCase subregion))%Z by lia.
    reflexivity.
Qed.

(** X5.  The adjuster preserves order: of two finite estimates for the
    same region and subregion, the larger one never gets the smaller
    adjusted value. *)
Theorem adjuster_monotone (a b : Q) (region subregion : string) :
  a <= b ->
  Num.le (applyRegionalCharacteristics (Fin a) region subregion)
    (applyRegionalCharacteristics (Fin b) region subregion) = true.
Proof.
  intros Hab. rewrite !AdjusterFacts.applyRegionalCharacteristics_table.
  apply AdjusterMore.applyRule_monotone;
    [apply AdjusterMore.matchedRule_saturating | exact Hab].
Qed.

Lemma adjuster_monotone_witness :
  0.1 <= 0.3
  /\ Num.le (applyRegionalCharacteristics (Fin 0.1) "California" "Central Valley")
       (applyRegionalCharacteristics (Fin 0.3) "California" "Central Valley") = true.
Proof.
  assert (H : 0.1 <= 0.3) by lra.
  split; [exact H |].
  exact (adjuster_monotone 0.1 0.3 "California" "Central Valley" H).
Defined.

(** X6.  The adjuster saturates: an estimate of 0.45 or more, or
    Infinity, is returned as exactly the upper bound of the matched rule,
    and an estimate of 0.05 or less, or -Infinity, as exactly its lower
    bound. *)
Theorem adjuster_saturates (region subregion : string) :
  let r := matchedRule region subregion in
  (forall v : Q, 0.45 <= v ->
     applyRegionalCharacteristics (Fin v) region subregion = Fin (hi r))
  /\ (forall v : Q, v <= 0.05 ->
        applyRegionalCharacteristics (Fin v) region subregion = Fin (lo r))
  /\ applyRegionalCharacteristics PosInf region subregion = Fin (hi r)
  /\ applyRegionalCharacteristics NegInf region subregion = Fin (lo r).
Proof.
  intros r. pose proof (AdjusterMore.matchedRule_saturating region subregion) as Hs.
  fold r in Hs. destruct Hs as [Hlh Hk].
  assert (Elh : Num.lt (Fin (lo r)) (Fin (hi r)) = true)
    by (apply NumFacts.lt_Fin; exact Hlh).
  split; [| split; [| split]].
  - intros v Hv. rewrite AdjusterFacts.applyRegionalCharacteristics_table. fold r.
    rewrite AdjusterMore.applyRule_Fin.
    destruct (AdjusterMore.clamp_cases (lo r) (hi r) (scaled r v) Hlh)
      as [[H E] | [[H E] | [H E]]]; try exact E; exfalso;
      unfold scaled in H; destruct (factor r) as [k | ];
      try destruct Hk as (Hk0 & Hk1 & Hk2); try nra; lra.
  - intros v Hv. rewrite AdjusterFacts.applyRegionalCharacteristics_table. fold r.
    rewrite AdjusterMore.applyRule_Fin.
    destruct (AdjusterMore.clamp_cases (lo r) (hi r) (scaled r v) Hlh)
      as [[H E] | [[H E] | [H E]]]; try exact E; exfalso;
      unfold scaled in H; destruct (factor r) as [k | ];
      try destruct Hk as (Hk0 & Hk1 & Hk2); try nra; lra.
  - rewrite AdjusterFacts.applyRegionalCharacteristics_table. fold r.
    assert (Ep : Num.max (Fin (lo r)) (Num.min (Fin (hi r)) PosInf) = Fin (hi r)).
    { change (Num.min (Fin (hi r)) PosInf) with (Fin (hi r)).
      unfold Num.max. rewrite Elh. reflexivity. }
    unfold Spec.applyRule. destruct (factor r) as [k | ]; [| exact Ep].
    destruct Hk as (Hk0 & _). cbn [Num.mul]. unfold Num.scaleInf.
    apply Qgt_alt in Hk0. rewrite Hk0. exact Ep.
  - rewrite AdjusterFacts.applyRegionalCharacteristics_table. fold r.
    unfold Spec.applyRule. destruct (factor r) as [k | ]; [| reflexivity].
    destruct Hk as (Hk0 & _). cbn [Num.mul]. unfold Num.scaleInf.
    apply Qgt_alt in Hk0. rewrite Hk0. reflexivity.
Qed.

(** X7.  The fallback never raises: for every region, subregion, date
    string and granule value it completes normally and appends exactly two
    console lines, the second of which is an error line exactly when the
    granule identifier could not be read. *)
Theorem fallback_never_raises
    (Date_parse : string -> option Z) (region subregion date : string)
    (granule : value) (c : console) :
  exists soilMoisture line,
    getRegionalSoilMoisture Date_parse region subregion date granule c
    = (Normal soilMoisture,
       c ++ [Log "Extracting regional data from satellite metadata..."; line])
    /\ (line = LogError "Error extracting regional data" TypeError
        <-> granuleChars granule = None)
    /\ (granuleChars granule <> None ->
        line = LogNum "Date-specific regional data" soilMoisture).
Proof.
  rewrite FallbackFacts.getRegionalSoilMoisture_run. unfold fallbackLog.
  destruct (granuleChars granule) as [chars | ]; do 2 eexists;
    (split; [reflexivity |]); split;
    try (split; intros H; (discriminate H || reflexivity));
    intros H; congruence.
Qed.

(** X8.  The identifier that seeds the fallback is [producer_granule_id]
    when that is truthy, else [id] when that is truthy, else the empty
    string.  When the selected value is a string the seeded algorithm runs
    on the sum of its character codes; when it is anything else the call
    of [split] throws and the last-resort path answers. *)
Theorem granule_identifier_selection
    (Date_parse : string -> option Z) (region subregion date : string)
    (props : list (string * value)) (c : console) :
  (forall s : string,
     chosenIdentifier props = VStr s ->
     getRegionalSoilMoisture Date_parse region subregion date (VObj props) c
     = seededRun Date_parse region subregion date
         (Str.sumCharCodes (Str.split s)) c)
  /\ ((forall s : string, chosenIdentifier props <> VStr s) ->
      getRegionalSoilMoisture Date_parse region subregion date (VObj props) c
      = lastResortRun Date_parse region subregion date c).
Proof.
  rewrite FallbackFacts.getRegionalSoilMoisture_run.
  unfold fallbackLog, deliveredToAdjuster, seededRun, lastResortRun.
  assert (E : granuleChars (VObj props)
              = match chosenIdentifier props with
                | VStr s => Some (Str.split s)
                | _ => None
                end) by reflexivity.
  rewrite E. split.
  - intros s Hs. rewrite Hs. reflexivity.
  - intros Hno. destruct (chosenIdentifier props) as [ | | b | n | s | ps];
      try reflexivity. exfalso. exact (Hno s eq_refl).
Qed.

Lemma granule_identifier_selection_witness :
  chosenIdentifier [("producer_granule_id", VStr ""); ("id", VStr "SMAP_001")]
  = VStr "SMAP_001"
  /\ getRegionalSoilMoisture parseIsoDate "India" "Punjab" "2025-07-01"
       (VObj [("producer_granule_id", VStr ""); ("id", VStr "SMAP_001")]) []
     = seededRun parseIsoDate "India" "Punjab" "2025-07-01"
         (Str.sumCharCodes (Str.split "SMAP_001")) []
  /\ (forall s : string, chosenIdentifier [("id", VNum (Fin 7))] <> VStr s)
  /\ getRegionalSoilMoisture parseIsoDate "India" "Punjab" "2025-07-01"
       (VObj [("id", VNum (Fin 7))]) []
     = lastResortRun parseIsoDate "India" "Punjab" "2025-07-01" [].
Proof.
  assert (H : forall s : string, chosenIdentifier [("id", VNum (Fin 7))] <> VStr s)
    by (intros s; discriminate).
  split; [reflexivity |]. split.
  - exact (proj1 (granule_identifier_selection parseIsoDate "India" "Punjab"
                    "2025-07-01"
                    [("producer_granule_id", VStr ""); ("id", VStr "SMAP_001")] [])
             "SMAP_001" eq_refl).
  - split; [exact H |].
    exact (proj2 (granule_identifier_selection parseIsoDate "India" "Punjab"
                    "2025-07-01" [("id", VNum (Fin 7))] []) H).
Defined.

(** X9.  The last-resort path does not vary with the date for time values
    that are whole seconds, as every date-only string gives: when the
    granule identifier cannot be read, the result is the adjusted value of
    0.2, whatever the date. *)
Theorem last_resort_constant_on_whole_seconds
    (Date_parse : string -> option Z) (region subregion date : string)
    (granule : value) (t : Z) (c : console) :
  validDate Date_parse date t ->
  Z.rem t 1000 = 0%Z ->
  granuleChars granule = None ->
  exists soilMoisture c',
    getRegionalSoilMoisture Date_parse region subregion date granule c
    = (Normal soilMoisture, c')
    /\ Num.same soilMoisture
         (applyRegionalCharacteristics (Fin 0.2) region subregion).
Proof.
  intros Hv Hms Hg. rewrite FallbackFacts.getRegionalSoilMoisture_run.
  do 2 eexists. split; [reflexivity |].
  apply AdjusterMore.applyRegionalCharacteristics_same.
  unfold deliveredToAdjuster, dateBasedValue. rewrite Hg.
  rewrite (FallbackFacts.newDate_valid Date_parse date t Hv).
  unfold getTime, Num.ofZ.
  rewrite NumFacts.rem_Fin by (cbn; discriminate).
  rewrite NumFacts.div_Fin by (cbn; discriminate).
  cbn [Num.add Num.same].
  rewrite (FallbackFacts.Qrem_inject_Z t 1000) by lia.
  rewrite Hms. change (inject_Z 0) with 0. change (inject_Z 5000) with 5000.
  field.
Qed.

Lemma last_resort_constant_on_whole_seconds_witness :
  validDate parseIsoDate "2025-07-01" 1751328000000
  /\ Z.rem 1751328000000 1000 = 0%Z
  /\ granuleChars VNull = None
  /\ exists soilMoisture c',
       getRegionalSoilMoisture parseIsoDate "India" "Punjab" "2025-07-01" VNull []
       = (Normal soilMoisture, c')
       /\ Num.same soilMoisture
            (applyRegionalCharacteristics (Fin 0.2) "India" "Punjab").
Proof.
  assert (Hv : validDate parseIsoDate "2025-07-01" 1751328000000).
  { split; [reflexivity | vm_compute; split; discriminate]. }
  split; [exact Hv |]. split; [reflexivity |]. split; [reflexivity |].
  exact (last_resort_constant_on_whole_seconds parseIsoDate "India" "Punjab"
           "2025-07-01" VNull 1751328000000 [] Hv eq_refl eq_refl).
Defined.

(** X10.  The granule enters the estimate only through the sum of the
    character codes of its identifier: for a valid date, two granules whose
    identifiers have equal sums, such as rearrangements of the same
    characters, get equal results. *)
Theorem granule_identifiers_with_equal_sums_collide
    (Date_parse : string -> option Z) (region subregion date : string)
    (granule granule' : value) (granuleId granuleId' : string) (t : Z)
    (c c' : console) :
  validDate Date_parse date t ->
  granuleChars granule = Some (Str.split granuleId) ->
  granuleChars granule' = Some (Str.split granuleId') ->
  Spec.charCodeSum granuleId = Spec.charCodeSum granuleId' ->
  exists v v' c1 c2,
    getRegionalSoilMoisture Date_parse region subregion date granule c
    = (Normal v, c1)
    /\ getRegionalSoilMoisture Date_parse region subregion date granule' c'
       = (Normal v', c2)
    /\ Num.same v v'.
Proof.
  intros Hv Hg Hg' Hsum. rewrite !FallbackFacts.getRegionalSoilMoisture_run.
  do 4 eexists. split; [reflexivity |]. split; [reflexivity |].
  apply AdjusterMore.applyRegionalCharacteristics_same.
  unfold deliveredToAdjuster. rewrite Hg, Hg'.
  rewrite (FallbackFacts.newDate_valid Date_parse date t Hv).
  destruct Hv as [_ Hy].
  destruct (FallbackFacts.sumCharCodes_split granuleId) as (g & Eg & Hgq).
  destruct (FallbackFacts.sumCharCodes_split granuleId') as (g' & Eg' & Hgq').
  rewrite Eg, Eg'.
  assert (Hg0 : 0 <= g).
  { rewrite Hgq. change 0 with (inject_Z 0). rewrite <- Zle_Qle.
    apply FallbackMore.charCodeSum_nonneg. }
  assert (Hg0' : 0 <= g').
  { rewrite Hgq'. change 0 with (inject_Z 0). rewrite <- Zle_Qle.
    apply FallbackMore.charCodeSum_nonneg. }
  destruct (FallbackFacts.seededMoisture_valid t Hy g region subregion Hg0)
    as (v & Ev & Hs & _).
  destruct (FallbackFacts.seededMoisture_valid t Hy g' region subregion Hg0')
    as (v' & Ev' & Hs' & _).
  rewrite Ev, Ev'. rewrite <- Hsum in Hgq'.
  eapply FallbackMore.same_trans; [exact (Hs _ Hgq) |].
  apply FallbackMore.same_sym. exact (Hs' _ Hgq').
Qed.

Lemma granule_identifiers_with_equal_sums_collide_witness :
  validDate parseIsoDate "2025-07-01" 1751328000000
  /\ Spec.charCodeSum "SMAP_12" = Spec.charCodeSum "SMAP_21"
  /\ exists v v' c1 c2,
       getRegionalSoilMoisture parseIsoDate "India" "Kerala" "2025-07-01"
         (VObj [("id", VStr "SMAP_12")]) []
       = (Normal v, c1)
       /\ getRegionalSoilMoisture parseIsoDate "India" "Kerala" "2025-07-01"
            (VObj [("id", VStr "SMAP_21")]) []
          = (Normal v', c2)
       /\ Num.same v v'.
Proof.
  assert (Hv : validDate parseIsoDate "2025-07-01" 1751328000000).
  { split; [reflexivity | vm_compute; split; discriminate]. }
  split; [exact Hv |]. split; [reflexivity |].
  exact (granule_identifiers_with_equal_sums_collide parseIsoDate "India" "Kerala"
           "2025-07-01" (VObj [("id", VStr "SMAP_12")])
           (VObj [("id", VStr "SMAP_21")]) "SMAP_12" "SMAP_21" 1751328000000 [] []
           Hv eq_refl eq_refl eq_refl).
Defined.

(** X11.  Date sensitivity: for a granule whose identifier can be read,
    a valid date and the next day of the same month get different
    estimates before regional adjustment. *)
Theorem next_day_changes_estimate
    (Date_parse : string -> option Z) (region subregion date date' : string)
    (granule : value) (chars : list ascii) (t : Z) :
  validDate Date_parse date t ->
  Date_parse date' = Some (t + msPerDay)%Z ->
  YearFromTime (t + msPerDay) = YearFromTime t ->
  MonthFromTime (t + msPerDay) = MonthFromTime t ->
  granuleChars granule = Some chars ->
  ~ Num.same (deliveredToAdjuster Date_parse region subregion date' granule)
      (deliveredToAdjuster Date_parse region subregion date granule).
Proof.
  intros Hv Hp Hy Hm Hg.
  assert (Hv' : validDate Date_parse date' (t + msPerDay)).
  { split; [exact Hp | rewrite Hy; exact (proj2 Hv)]. }
  unfold deliveredToAdjuster. rewrite Hg.
  rewrite (FallbackFacts.newDate_valid Date_parse date t Hv).
  rewrite (FallbackFacts.newDate_valid Date_parse date' _ Hv').
  apply FallbackMore.next_day_seededMoisture; [exact (proj2 Hv) | exact Hy | exact Hm].
Qed.

Lemma next_day_changes_estimate_witness :
  validDate parseIsoDate "2025-07-01" 1751328000000
  /\ parseIsoDate "2025-07-02" = Some (1751328000000 + msPerDay)%Z
  /\ ~ Num.same
         (deliveredToAdjuster parseIsoDate "India" "Punjab" "2025-07-02" namedGranule)
         (deliveredToAdjuster parseIsoDate "India" "Punjab" "2025-07-01" namedGranule).
Proof.
  assert (Hv : validDate parseIsoDate "2025-07-01" 1751328000000).
  { split; [reflexivity | vm_compute; split; discriminate]. }
  split; [exact Hv |]. split; [reflexivity |].
  exact (next_day_changes_estimate parseIsoDate "India" "Punjab" "2025-07-01"
           "2025-07-02" namedGranule _ 1751328000000 Hv eq_refl eq_refl eq_refl
           eq_refl).
Defined.


Lemma oneReadingBuffer_first_marker : firstMarkerAt oneReadingBuffer 0.
Proof.
  split; [vm_compute; split; [discriminate | reflexivity] |].
  split; [vm_compute; reflexivity |]. intros j Hj. lia.
Qed.


(** X13.  Whenever the extractor returns data it returns between 1 and
    1000 samples, and the buffer holds at least the 1000 skipped bytes and
    four bytes for each sample. *)
Theorem extractor_sample_count
    (buffer : ArrayBuffer) (bbox : BBox) (region subregion : string)
    (c c' : console) (average : number) (validValues : list number) :
  processHDF5File buffer bbox region subregion c
  = (Normal (Some (average, validValues)), c') ->
  (1 <= List.length validValues <= 1000)%nat
  /\ (1000 + 4 * Z.of_nat (List.length validValues) <= byteLength buffer)%Z.
Proof.
  intros E.
  destruct (ExtractorFacts.processHDF5File_run buffer bbox region subregion c)
    as (c1 & E1).
  rewrite E1 in E. injection E as Ex _. unfold extractorResult in Ex.
  destruct (firstMarker buffer 0 (Z.to_nat (byteLength buffer - 4))) as [m | ] eqn:Em;
    [| discriminate].
  apply ExtractorFacts.firstMarker_found in Em. destruct Em as [Hm _].
  cbv zeta in Ex.
  set (n := Z.min 1000 ((byteLength buffer - (m + 1000)) / 4)) in *.
  pose proof (ExtractorMore.collected_length buffer bbox (m + 1000) n (Z.to_nat n)
                0%Z []) as Hlen.
  destruct (collected buffer bbox (m + 1000) n 0 (Z.to_nat n) []) as [ | v rest];
    [discriminate |].
  injection Ex as _ <-. cbn [List.length] in *.
  assert (Hn : (4 * n <= byteLength buffer - (m + 1000))%Z
               \/ (n <= 0)%Z).
  { unfold n. Z.div_mod_to_equations. lia. }
  unfold n in *. lia.
Qed.

Lemma extractor_sample_count_witness :
  exists average validValues c',
    processHDF5File oneReadingBuffer punjabBox "India" "Punjab" []
    = (Normal (Some (average, validValues)), c')
    /\ (1 <= List.length validValues <= 1000)%nat
    /\ (1000 + 4 * Z.of_nat (List.length validValues)
        <= byteLength oneReadingBuffer)%Z.
Proof.
  do 3 eexists.
  assert (E : processHDF5File oneReadingBuffer punjabBox "India" "Punjab" []
              = (Normal (Some (averageOf [float32At oneReadingBuffer 1000],
                               [float32At oneReadingBuffer 1000])),
                 snd (processHDF5File oneReadingBuffer punjabBox "India" "Punjab" [])))
    by (vm_compute; reflexivity).
  split; [exact E |].
  exact (extractor_sample_count oneReadingBuffer punjabBox "India" "Punjab" [] _ _ _ E).
Defined.

(** X14.  The mean the extractor returns lies in every interval that holds
    all the returned samples, so it lies between the smallest and the
    largest sample. *)
Theorem extractor_mean_between_samples
    (buffer : ArrayBuffer) (bbox : BBox) (region subregion : string)
    (c c' : console) (average : number) (validValues : list number)
    (low high : Q) :
  processHDF5File buffer bbox region subregion c
  = (Normal (Some (average, validValues)), c') ->
  Forall (Num.within low high) validValues ->
  Num.within low high average.
Proof.
  intros E Hall.
  destruct (ExtractorFacts.processHDF5File_run buffer bbox region subregion c)
    as (c1 & E1).
  rewrite E1 in E. injection E as Ex _. unfold extractorResult in Ex.
  destruct (firstMarker buffer 0 (Z.to_nat (byteLength buffer - 4))) as [m | ];
    [| discriminate].
  cbv zeta in Ex.
  destruct (collected buffer bbox (m + 1000) _ 0 _ []) as [ | v rest];
    [discriminate |].
  injection Ex as <- <-.
  apply ExtractorMore.averageOf_within; [discriminate | exact Hall].
Qed.

Lemma extractor_mean_between_samples_witness :
  exists average validValues c',
    processHDF5File oneReadingBuffer punjabBox "India" "Punjab" []
    = (Normal (Some (average, validValues)), c')
    /\ Forall (Num.within 0.5 0.5) validValues
    /\ Num.within 0.5 0.5 average.
Proof.
  do 3 eexists.
  assert (E : processHDF5File oneReadingBuffer punjabBox "India" "Punjab" []
              = (Normal (Some (averageOf [float32At oneReadingBuffer 1000],
                               [float32At oneReadingBuffer 1000])),
                 snd (processHDF5File oneReadingBuffer punjabBox "India" "Punjab" [])))
    by (vm_compute; reflexivity).
  assert (H : Forall (Num.within 0.5 0.5) [float32At oneReadingBuffer 1000]).
  { constructor; [| constructor]. vm_compute. split; discriminate. }
  split; [exact E |]. split; [exact H |].
  exact (extractor_mean_between_samples oneReadingBuffer punjabBox "India" "Punjab"
           [] _ _ _ 0.5 0.5 E H).
Defined.

(** X15.  A stored value passes the extractor's validity test exactly when
    its four bytes, read as a little-endian unsigned integer, lie strictly
    between 0 and 0x3F800000, the pattern of 1.0.  The comparison with the
    fill value -9999 never decides: the test equals the two range
    comparisons alone. *)
Theorem reading_valid_iff_word_below_one
    (buffer : ArrayBuffer) (offset : Z) (c : console) :
  (0 <= offset)%Z -> (offset + 4 <= byteLength buffer)%Z ->
  (exists value,
     getFloat32 buffer offset c = (Normal value, c)
     /\ (isValidReading value = true
         <-> (0 < wordAt buffer offset < 1065353216)%Z))
  /\ forall value : number,
       isValidReading value
       = Num.gt value (Num.ofZ 0) && Num.lt value (Num.ofZ 1).
Proof.
  intros H0 H1. split.
  - exists (decodeFloat32 (wordAt buffer offset)). split.
    + unfold getFloat32.
      destruct (Z.ltb_spec offset 0); [lia |].
      destruct (Z.ltb_spec (byteLength buffer) (offset + 4)); [lia |].
      reflexivity.
    + apply BitPatterns.valid_bits. apply BitPatterns.wordAt_range.
  - intros value. destruct value as [ | | | q]; try reflexivity.
    destruct (isValidReading (Fin q)) eqn:E.
    + apply BitPatterns.isValidReading_Fin in E. destruct E as [E0 E1].
      symmetry. apply andb_true_intro. unfold Num.gt, Num.ofZ.
      split; apply NumFacts.lt_Fin; assumption.
    + destruct (Num.gt (Fin q) (Num.ofZ 0) && Num.lt (Fin q) (Num.ofZ 1)) eqn:E';
        [| reflexivity].
      apply andb_true_iff in E'. destruct E' as [E0 E1].
      unfold Num.gt, Num.ofZ in *. apply NumFacts.lt_Fin in E0, E1.
      change (inject_Z 0) with 0 in E0. change (inject_Z 1) with 1 in E1.
      assert (isValidReading (Fin q) = true)
        by (apply BitPatterns.isValidReading_Fin; split; assumption).
      congruence.
Qed.

Lemma reading_valid_iff_word_below_one_witness :
  (0 <= 1000)%Z /\ (1000 + 4 <= byteLength oneReadingBuffer)%Z
  /\ exists value,
       getFloat32 oneReadingBuffer 1000 [] = (Normal value, [])
       /\ (isValidReading value = true
           <-> (0 < wordAt oneReadingBuffer 1000 < 1065353216)%Z).
Proof.
  assert (H0 : (0 <= 1000)%Z) by lia.
  assert (H1 : (1000 + 4 <= byteLength oneReadingBuffer)%Z)
    by (vm_compute; discriminate).
  split; [exact H0 |]. split; [exact H1 |].
  exact (proj1 (reading_valid_iff_word_below_one oneReadingBuffer 1000 [] H0 H1)).
Defined.

(** X16.  Inside the clamp interval the adjuster is the multiplication by
    the factor of the matched rule; when no rule matches, an estimate
    strictly between 0.05 and 0.45 is returned unchanged. *)
Theorem adjuster_scales_inside_interval (v : Q) (region subregion : string) :
  let r := matchedRule region subregion in
  lo r < scaled r v < hi r ->
  applyRegionalCharacteristics (Fin v) region subregion = Fin (scaled r v)
  /\ (find (ruleMatches region subregion) ruleTable = None ->
      applyRegionalCharacteristics (Fin v) region subregion = Fin v).
Proof.
  intros r Hin.
  pose proof (AdjusterMore.matchedRule_saturating region subregion) as Hs.
  fold r in Hs. destruct Hs as [Hlh _].
  assert (E : applyRegionalCharacteristics (Fin v) region subregion = Fin (scaled r v)).
  { rewrite AdjusterFacts.applyRegionalCharacteristics_table. fold r.
    rewrite AdjusterMore.applyRule_Fin.
    destruct (AdjusterMore.clamp_cases (lo r) (hi r) (scaled r v) Hlh)
      as [[H _] | [[_ E] | [H _]]]; [lra | exact E | lra]. }
  split; [exact E |].
  intros Hnone. rewrite E. unfold r, matchedRule, scaled. rewrite Hnone. reflexivity.
Qed.

Lemma adjuster_scales_inside_interval_witness :
  lo (matchedRule "India" "Kerala") < scaled (matchedRule "India" "Kerala") 0.25
  < hi (matchedRule "India" "Kerala")
  /\ applyRegionalCharacteristics (Fin 0.25) "India" "Kerala"
     = Fin (scaled (matchedRule "India" "Kerala") 0.25).
Proof.
  assert (H : lo (matchedRule "India" "Kerala")
              < scaled (matchedRule "India" "Kerala") 0.25
              < hi (matchedRule "India" "Kerala"))
    by (vm_compute; split; reflexivity).
  split; [exact H |].
  exact (proj1 (adjuster_scales_inside_interval 0.25 "India" "Kerala" H)).
Defined.

(** X17.  California has no catch-all case: for a region that mentions
    California and none of the other region keywords, a subregion that is
    neither a central valley nor a southern coast gets the default clamp
    to [0.05, 0.45] without multiplier. *)
Theorem california_falls_through_to_default
    (baseMoisture : number) (region subregion : string) :
  Str.includes (Str.toLowerCase region) "california" = true ->
  Forall (fun key => Str.includes (Str.toLowerCase region) key = false)
    ["thailand"; "central thailand"; "vietnam"; "mekong delta"; "indonesia";
     "java island"; "malaysia"; "peninsular malaysia"; "philippines";
     "luzon island"; "india"] ->
  Str.includes (Str.toLowerCase subregion) "central valley" = false ->
  Str.includes (Str.toLowerCase subregion) "southern coast" = false ->
  applyRegionalCharacteristics baseMoisture region subregion
  = Num.max (Fin 0.05) (Num.min (Fin 0.45) baseMoisture).
Proof.
  intros Hc Hkeys Hcv Hsc.
  repeat match goal with
         | H : Forall _ (_ :: _) |- _ => inversion H; subst; clear H
         end.
  unfold applyRegionalCharacteristics.
  repeat match goal with
         | H : Str.includes _ _ = _ |- _ => rewrite H; clear H
         end.
  reflexivity.
Qed.

Lemma california_falls_through_to_default_witness :
  applyRegionalCharacteristics (Fin 0.3) "California" "Northern Coast"
  = Num.max (Fin 0.05) (Num.min (Fin 0.45) (Fin 0.3)).
Proof.
  apply (california_falls_through_to_default (Fin 0.3) "California" "Northern Coast").
  - reflexivity.
  - repeat constructor.
  - reflexivity.
  - reflexivity.
Defined.

(** X18.  From year 100 on, the fallback's [dayOfYear] is the ordinal day
    of the date within its calendar year, the days of the preceding months
    plus the day of the month, and its date seed is
    (year*31 + monthIndex*47 + dayOfMonth*13 + dayOfYear) mod 10000 with the
    month index counted from zero. *)
Theorem date_seed_formula_from_year_100
    (Date_parse : string -> option Z) (date : string) (t : Z) :
  newDate Date_parse date = Some t ->
  (100 <= YearFromTime t)%Z ->
  let dateObj := newDate Date_parse date in
  let year := YearFromTime t in
  let monthIndex := MonthFromTime t in
  let dayOfMonth := DateFromTime t in
  let ordinalDay := (DayWithinYear t + 1)%Z in
  (0 <= monthIndex <= 11)%Z
  /\ (1 <= dayOfMonth <= 31)%Z
  /\ ordinalDay = (monthStart monthIndex (InLeapYear t) + dayOfMonth)%Z
  /\ getFullYear dateObj = Num.ofZ year
  /\ getMonth dateObj = Num.ofZ monthIndex
  /\ getDate dateObj = Num.ofZ dayOfMonth
  /\ dayOfYear dateObj = Num.ofZ ordinalDay
  /\ Num.same (dateSeed dateObj)
       (Num.ofZ ((year * 31 + monthIndex * 47 + dayOfMonth * 13 + ordinalDay)
                 mod 10000)).
Proof.
  intros En Hy dateObj year monthIndex dayOfMonth ordinalDay.
  pose proof (DateFacts.time_value_year t
                (FallbackFacts.newDate_time_value Date_parse date t En)) as Hr.
  assert (Hr' : (-271820 <= YearFromTime t <= 275760)%Z) by lia.
  pose proof (DateFacts.MonthFromTime_range t) as Hm.
  pose proof (DateFacts.DateFromTime_range t) as Hd.
  pose proof (DateFacts.DayWithinYear_range t) as Hw.
  pose proof (FallbackFacts.elapsedDays_ordinal t Hy) as Ho.
  subst dateObj. rewrite En.
  split; [exact Hm |]. split; [exact Hd |].
  split; [subst ordinalDay dayOfMonth monthIndex; unfold DateFromTime; lia |].
  split; [reflexivity |]. split; [reflexivity |]. split; [reflexivity |].
  split.
  - rewrite (FallbackFacts.dayOfYear_elapsed t Hr'), Ho. reflexivity.
  - destruct (FallbackFacts.dateSeed_elapsed t Hr') as (q & Eq & Hq).
    rewrite Eq. cbn [Num.same Num.ofZ]. rewrite Hq, Ho.
    unfold Spec.dateSeed. fold year monthIndex dayOfMonth ordinalDay.
    rewrite Z.rem_mod_nonneg; [reflexivity | | lia].
    subst year monthIndex dayOfMonth ordinalDay. lia.
Qed.

Lemma date_seed_formula_from_year_100_witness :
  newDate parseIsoDate "2025-07-01" = Some 1751328000000%Z
  /\ (100 <= YearFromTime 1751328000000)%Z
  /\ dayOfYear (newDate parseIsoDate "2025-07-01") = Num.ofZ 182
  /\ Num.same (dateSeed (newDate parseIsoDate "2025-07-01")) (Num.ofZ 3252).
Proof.
  assert (En : newDate parseIsoDate "2025-07-01" = Some 1751328000000%Z)
    by (vm_compute; reflexivity).
  assert (Hy : (100 <= YearFromTime 1751328000000)%Z)
    by (vm_compute; discriminate).
  split; [exact En |]. split; [exact Hy |].
  pose proof (date_seed_formula_from_year_100 parseIsoDate "2025-07-01"
                1751328000000 En Hy) as H.
  cbv zeta in H.
  destruct H as (_ & _ & _ & _ & _ & _ & Hday & Hseed).
  split; [exact Hday | exact Hseed].
Defined.
